(** * Clockstar v2 firmware: the motion-controlled mini-games

    A shallow embedding of the two game screens of the firmware,
    [PongGame] (PongGame.h / PongGame.cpp) and [BirdDodger]
    (BirdDodger.h / BirdDodger.cpp), and the properties of their
    game-session core: the Playing/GameOver state machine, the collision
    resolver, the obstacle pool, the difficulty progression and the
    filtered input.

    Modelling choices.
    - C++ [float] is IEEE-754 binary32, embedded with the Standard
      Library's [spec_float] at precision 24 and maximal exponent 128;
      every operator rounds once, to nearest-even.  [double] (used by
      [resetBall] through [M_PI]) is binary64.
    - C++ [int] is a 32-bit two's complement integer kept as a [Z]; an
      increment wraps ([Int.wrap32]).  [uint32_t] is a [Z] reduced
      modulo 2^32.
    - The game thread is a sequence of calls of [updateGame]; the values
      it reads from the outside (the accelerometer sample, the hardware
      random number) are arguments of the call.  The UI thread is a
      sequence of calls of [handleInput], whose argument is the result of
      the queue poll.  The two threads are interleaved at the granularity
      of whole calls.
    - Audio is an effect: the cues played are logged in the state, most
      recent first.  The LVGL objects are a projection of the state and
      are left out. *)

From Stdlib Require Import ZArith Bool Lia.
From Stdlib Require Import Floats.SpecFloat.
From stdpp Require Import base list strings pretty.

Local Open Scope Z_scope.

(** ** binary32 arithmetic *)

Module F32.

Definition float : Type := spec_float.

Definition prec : Z := 24.
Definition emax : Z := 128.

Definition add : float -> float -> float := SFadd prec emax.
Definition sub : float -> float -> float := SFsub prec emax.
Definition mul : float -> float -> float := SFmul prec emax.
Definition div : float -> float -> float := SFdiv prec emax.
Definition neg : float -> float := SFopp.

(** [a < b], [a <= b], [a > b], [a >= b]: false as soon as one side is
    a NaN. *)
Definition ltb (a b : float) : bool := SFltb a b.
Definition leb (a b : float) : bool := SFleb a b.
Definition gtb (a b : float) : bool :=
  match SFcompare a b with Some Gt => true | _ => false end.
Definition geb (a b : float) : bool :=
  match SFcompare a b with Some (Gt | Eq) => true | _ => false end.

(** Conversion of an integer (an [int] constant expression or a
    [uint32_t] value) to [float]. *)
Definition of_int (z : Z) : float := binary_normalize prec emax z 0 false.

(** The literal [p/q] written in decimal with an [f] suffix: the
    binary32 value nearest to the quotient. *)
Definition lit (p q : Z) : float := div (of_int p) (of_int q).

(** [std::clamp(v, lo, hi)] is [(v < lo) ? lo : (hi < v) ? hi : v]. *)
Definition clamp (v lo hi : float) : float :=
  if ltb v lo then lo else if ltb hi v then hi else v.

(** [std::min(a, b)] is [(b < a) ? b : a]. *)
Definition min (a b : float) : float := if ltb b a then b else a.

End F32.

(** ** binary64 arithmetic, as far as [resetBall] needs it *)

Module F64.

Definition double : Type := spec_float.

Definition prec : Z := 53.
Definition emax : Z := 1024.

Definition mul : double -> double -> double := SFmul prec emax.
Definition div : double -> double -> double := SFdiv prec emax.

Definition of_int (z : Z) : double := binary_normalize prec emax z 0 false.

(** Promotion of a [float] operand: exact. *)
Definition of_f32 (f : F32.float) : double :=
  match f with
  | S754_finite s m e => binary_round prec emax s m e
  | _ => f
  end.

(** Conversion of a [double] to [float] on assignment: one rounding. *)
Definition to_f32 (d : double) : F32.float :=
  match d with
  | S754_finite s m e => binary_round F32.prec F32.emax s m e
  | _ => d
  end.

(** [M_PI] of <cmath>, 0x400921FB54442D18. *)
Definition M_PI : double := S754_finite false 7074237752028440 (-51).

End F64.

(** ** Machine integers *)

Module Int.

Definition INT_MAX : Z := 2 ^ 31 - 1.
Definition INT_MIN : Z := - 2 ^ 31.

(** The value of an [int] after an arithmetic result [z] is stored:
    two's complement wrap-around. *)
Definition wrap32 (z : Z) : Z := (z + 2 ^ 31) mod 2 ^ 32 - 2 ^ 31.

(** The value of a [uint32_t] after an arithmetic result [z]. *)
Definition uwrap32 (z : Z) : Z := z mod 2 ^ 32.

End Int.

(** ** The sensor filter (Util/EMA.h) *)

Module EMA.
Import F32.

(** Modelled from the spec: the class [EMA] of Util/EMA.h is not among
    the sources.  It owns the filtered value [current] and the smoothing
    coefficient [strength], fixed at construction. *)
Record t : Type := mk { strength : float; current : float }.

(** Modelled from the spec: [EMA::EMA(strength)], starting from a
    zeroed value. *)
Definition make (a : float) : t := mk a (of_int 0).

(** Modelled from the spec: [reset(sample)] sets [current = sample]. *)
Definition reset (f : t) (sample : float) : t := mk (strength f) sample.

(** Modelled from the spec: [update(sample)] applies
    [current = current*(1-strength) + sample*strength] and returns the
    new [current]. *)
Definition update (f : t) (sample : float) : t * float :=
  let c := add (mul (current f) (sub (of_int 1) (strength f)))
               (mul sample (strength f)) in
  (mk (strength f) c, c).

End EMA.

(** ** Button events (Devices/Input.h, Util/Events.h) *)

Module Input.

(** Modelled from the spec: the buttons of [Input::Button]; the screens
    tell [Alt] and [Select] from the rest. *)
Inductive Button : Type := Select | Alt | OtherButton.

Inductive Action : Type := Press | Release.

Record Data : Type := mkData { btn : Button; action : Action }.

(** An event of the queue: one of [Facility::Input] with its payload, or
    one of another facility. *)
Inductive Event : Type :=
| InputEvent (d : Data)
| OtherEvent.

(** The press that restarts a finished game. *)
Definition isRestart (e : option Event) : bool :=
  match e with
  | Some (InputEvent (mkData Select Press)) => true
  | _ => false
  end.

End Input.

(** The audio cues of the screens ([playHitSound], [playMissSound]). *)
Inductive Cue : Type := HitSound | MissSound.

(** ** PongGame *)

Module Pong.
Import F32.

Definition SCREEN_WIDTH : Z := 128.
Definition SCREEN_HEIGHT : Z := 128.
Definition BALL_SIZE : Z := 4.
Definition PADDLE_WIDTH : Z := 4.
Definition PADDLE_HEIGHT : Z := 24.
Definition BALL_SPEED : float := lit 3 2.
Definition PADDLE_SPEED : float := lit 2 100.
Definition filterStrength : float := lit 15 100.

Record Ball : Type := mkBall { x : float; y : float; vx : float; vy : float }.

Record State : Type := mkState {
  ballState : Ball;
  paddleY : float;
  score : Z;
  gameOver : bool;
  pitchFilter : EMA.t;
  running : bool;
  audio : list Cue
}.

Definition set_ball (b : Ball) (s : State) : State :=
  mkState b (paddleY s) (score s) (gameOver s) (pitchFilter s) (running s) (audio s).
Definition set_paddleY (p : float) (s : State) : State :=
  mkState (ballState s) p (score s) (gameOver s) (pitchFilter s) (running s) (audio s).
Definition set_score (n : Z) (s : State) : State :=
  mkState (ballState s) (paddleY s) n (gameOver s) (pitchFilter s) (running s) (audio s).
Definition set_gameOver (g : bool) (s : State) : State :=
  mkState (ballState s) (paddleY s) (score s) g (pitchFilter s) (running s) (audio s).
Definition set_pitchFilter (f : EMA.t) (s : State) : State :=
  mkState (ballState s) (paddleY s) (score s) (gameOver s) f (running s) (audio s).
Definition set_running (r : bool) (s : State) : State :=
  mkState (ballState s) (paddleY s) (score s) (gameOver s) (pitchFilter s) r (audio s).
Definition play (c : Cue) (s : State) : State :=
  mkState (ballState s) (paddleY s) (score s) (gameOver s) (pitchFilter s) (running s)
          (c :: audio s).

Definition playHitSound : State -> State := play HitSound.
Definition playMissSound : State -> State := play MissSound.

(** The angle of [resetBall], in degrees, as the [uint32_t] expression
    [esp_random() % 90 - 45] computes it: [rnd] is the [uint32_t] that
    [esp_random()] returns, and the subtraction is unsigned. *)
Definition angleDegrees (rnd : Z) : Z := Int.uwrap32 (rnd mod 90 - 45).

(** [float angle = (esp_random() % 90 - 45) * M_PI / 180.0f]. *)
Definition angle (rnd : Z) : float :=
  F64.to_f32
    (F64.div (F64.mul (F64.of_int (angleDegrees rnd)) F64.M_PI)
             (F64.of_f32 (lit 180 1))).

Section Libm.

(** [std::cos(float)] and [std::sin(float)] of the C library. *)
Variables cosf sinf : float -> float.

Definition resetBall (rnd : Z) (s : State) : State :=
  let a := angle rnd in
  set_ball (mkBall (of_int (SCREEN_WIDTH ÷ 2)) (of_int (SCREEN_HEIGHT ÷ 2))
                   (mul BALL_SPEED (cosf a)) (mul BALL_SPEED (sinf a))) s.

(** The constructor: the member initialisers, then [resetBall]. *)
Definition construct (rnd : Z) : State :=
  resetBall rnd
    (mkState (mkBall (of_int 0) (of_int 0) (of_int 0) (of_int 0))
             (lit 1 2) 0 false (EMA.make filterStrength) false []).

(** [handleInput]: [ev] is what [queue.get(event, 0)] delivered, if
    anything; the second component tells whether the transition to
    the main menu was requested. *)
Definition handleInput (ev : option Input.Event) (rnd : Z) (s : State)
  : State * bool :=
  match ev with
  | Some (Input.InputEvent d) =>
      match Input.action d with
      | Input.Press =>
          match Input.btn d with
          | Input.Alt => (s, true)
          | Input.Select =>
              if gameOver s
              then (resetBall rnd (set_gameOver false (set_score 0 s)), false)
              else (s, false)
          | Input.OtherButton => (s, false)
          end
      | Input.Release => (s, false)
      end
  | Some Input.OtherEvent => (s, false)
  | None => (s, false)
  end.

End Libm.

(** [onStart]: [sample] is [imu->getSample().accelY]. *)
Definition onStart (sample : float) (s : State) : State :=
  set_running true (set_pitchFilter (EMA.reset (pitchFilter s) sample) s).

Definition onStop (s : State) : State := set_running false s.

(** The three tests of [checkCollisions], in the order of the source. *)

(** Top/bottom walls. *)
Definition wallCheck (s : State) : State :=
  let b := ballState s in
  if leb (y b) (of_int 0) || geb (y b) (of_int (SCREEN_HEIGHT - BALL_SIZE))
  then playHitSound (set_ball (mkBall (x b) (y b) (vx b) (neg (vy b))) s)
  else s.

Definition paddleTop (s : State) : float :=
  mul (paddleY s) (of_int (SCREEN_HEIGHT - PADDLE_HEIGHT)).
Definition paddleBottom (s : State) : float :=
  add (paddleTop s) (of_int PADDLE_HEIGHT).

(** [hitPos] and the spin added to [vy] on a paddle hit. *)
Definition hitPos (s : State) : float :=
  div (sub (y (ballState s)) (paddleTop s)) (of_int PADDLE_HEIGHT).
Definition spin (s : State) : float :=
  mul (sub (hitPos s) (lit 1 2)) (lit 1 2).

(** Left wall - paddle side. *)
Definition paddleCheck (s : State) : State :=
  let b := ballState s in
  if leb (x b) (of_int PADDLE_WIDTH) then
    if geb (y b) (paddleTop s) && leb (y b) (paddleBottom s) then
      playHitSound
        (set_score (Int.wrap32 (score s + 1))
           (set_ball (mkBall (of_int PADDLE_WIDTH) (y b) (neg (vx b))
                             (add (vy b) (spin s))) s))
    else if leb (x b) (of_int 0) then
      playMissSound (set_gameOver true s)
    else s
  else s.

(** Right wall. *)
Definition rightWallCheck (s : State) : State :=
  let b := ballState s in
  if geb (x b) (of_int (SCREEN_WIDTH - BALL_SIZE))
  then playHitSound
         (set_ball (mkBall (of_int (SCREEN_WIDTH - BALL_SIZE)) (y b)
                           (neg (vx b)) (vy b)) s)
  else s.

Definition checkCollisions (s : State) : State :=
  rightWallCheck (paddleCheck (wallCheck s)).

(** [ballState.x += ballState.vx; ballState.y += ballState.vy]. *)
Definition moveBall (s : State) : State :=
  let b := ballState s in
  set_ball (mkBall (add (x b) (vx b)) (add (y b) (vy b)) (vx b) (vy b)) s.

(** The paddle update of [updateGame]; [sample] is
    [imu->getSample().accelY]. *)
Definition updatePaddle (sample : float) (s : State) : State :=
  let '(f, pitch) := EMA.update (pitchFilter s) sample in
  let targetY := clamp (div (add pitch (lit 3 10)) (lit 6 10)) (of_int 0) (of_int 1) in
  let p := add (paddleY s) (mul (sub targetY (paddleY s)) PADDLE_SPEED) in
  set_paddleY (clamp p (of_int 0) (of_int 1)) (set_pitchFilter f s).

Definition updateGame (sample : float) (s : State) : State :=
  if gameOver s then s
  else updatePaddle sample (checkCollisions (moveBall s)).

(** What the two threads do to the session, one call at a time. *)
Inductive Step : Type :=
| Tick (sample : float)
| Poll (ev : option Input.Event) (rnd : Z).

Definition isRestartStep (st : Step) : bool :=
  match st with
  | Tick _ => false
  | Poll ev _ => Input.isRestart ev
  end.

(** The cues played between [s] and a later state [s']: every
    collision resolution plays exactly one. *)
Definition resolutions (s s' : State) : nat :=
  (length (audio s') - length (audio s))%nat.

Section Run.
Variables cosf sinf : float -> float.

Definition step (st : Step) (s : State) : State :=
  match st with
  | Tick sample => updateGame sample s
  | Poll ev rnd => fst (handleInput cosf sinf ev rnd s)
  end.

Fixpoint run (l : list Step) (s : State) : State :=
  match l with
  | [] => s
  | st :: l' => run l' (step st s)
  end.
End Run.

End Pong.


(** ** BirdDodger *)

Module BirdDodger.
Import F32.

Definition MAX_BIRDS : nat := 5.
Definition SCREEN_WIDTH : Z := 128.
Definition SCREEN_HEIGHT : Z := 128.
Definition PLANE_SIZE : Z := 8.
Definition BIRD_SIZE : Z := 6.
Definition PLANE_Y : Z := 100.
Definition INITIAL_SPEED : float := lit 1 1.
Definition SPEED_INCREMENT : float := lit 1 10.
Definition MAX_SPEED : float := lit 3 1.
Definition PLANE_SPEED : float := lit 3 100.
Definition SPAWN_INTERVAL : Z := 60.
Definition filterStrength : float := lit 15 100.

Record Bird : Type := mkBird { x : float; y : float; active : bool }.

(** [birdState] is the array [Bird birdState[MAX_BIRDS]], in index
    order. *)
Record State : Type := mkState {
  planeX : float;
  birdState : list Bird;
  score : Z;
  lastDifficultyScore : Z;
  gameOver : bool;
  scrollSpeed : float;
  frameCounter : Z;
  rollFilter : EMA.t;
  running : bool;
  audio : list Cue
}.

Definition set_planeX (p : float) (s : State) : State :=
  mkState p (birdState s) (score s) (lastDifficultyScore s) (gameOver s)
          (scrollSpeed s) (frameCounter s) (rollFilter s) (running s) (audio s).
Definition set_birds (bs : list Bird) (s : State) : State :=
  mkState (planeX s) bs (score s) (lastDifficultyScore s) (gameOver s)
          (scrollSpeed s) (frameCounter s) (rollFilter s) (running s) (audio s).
Definition set_score (n : Z) (s : State) : State :=
  mkState (planeX s) (birdState s) n (lastDifficultyScore s) (gameOver s)
          (scrollSpeed s) (frameCounter s) (rollFilter s) (running s) (audio s).
Definition set_lastDifficultyScore (n : Z) (s : State) : State :=
  mkState (planeX s) (birdState s) (score s) n (gameOver s)
          (scrollSpeed s) (frameCounter s) (rollFilter s) (running s) (audio s).
Definition set_gameOver (g : bool) (s : State) : State :=
  mkState (planeX s) (birdState s) (score s) (lastDifficultyScore s) g
          (scrollSpeed s) (frameCounter s) (rollFilter s) (running s) (audio s).
Definition set_scrollSpeed (v : float) (s : State) : State :=
  mkState (planeX s) (birdState s) (score s) (lastDifficultyScore s) (gameOver s)
          v (frameCounter s) (rollFilter s) (running s) (audio s).
Definition set_frameCounter (n : Z) (s : State) : State :=
  mkState (planeX s) (birdState s) (score s) (lastDifficultyScore s) (gameOver s)
          (scrollSpeed s) n (rollFilter s) (running s) (audio s).
Definition set_rollFilter (f : EMA.t) (s : State) : State :=
  mkState (planeX s) (birdState s) (score s) (lastDifficultyScore s) (gameOver s)
          (scrollSpeed s) (frameCounter s) f (running s) (audio s).
Definition set_running (r : bool) (s : State) : State :=
  mkState (planeX s) (birdState s) (score s) (lastDifficultyScore s) (gameOver s)
          (scrollSpeed s) (frameCounter s) (rollFilter s) r (audio s).
Definition playMissSound (s : State) : State :=
  mkState (planeX s) (birdState s) (score s) (lastDifficultyScore s) (gameOver s)
          (scrollSpeed s) (frameCounter s) (rollFilter s) (running s)
          (MissSound :: audio s).

(** The loops [for(int i = 0; i < MAX_BIRDS; i++)] of the source run
    over the slots [i], [i+1], ... with [n] iterations left; they are
    started as [loop MAX_BIRDS 0].  A slot that the array does not have
    ends the loop: it cannot occur while the array has its [MAX_BIRDS]
    slots. *)

(** The slot a spawn writes: [rnd] is the [uint32_t] that
    [esp_random()] returns. *)
Definition freshBird (rnd : Z) : Bird :=
  mkBird (of_int (rnd mod (SCREEN_WIDTH - BIRD_SIZE))) (of_int (- BIRD_SIZE)) true.

Fixpoint spawnLoop (n i : nat) (rnd : Z) (bs : list Bird) : list Bird :=
  match n with
  | O => bs
  | S n' =>
      match bs !! i with
      | Some b =>
          if negb (active b) then <[i := freshBird rnd]> bs
          else spawnLoop n' (S i) rnd bs
      | None => bs
      end
  end.

Definition spawnBird (rnd : Z) (s : State) : State :=
  set_birds (spawnLoop MAX_BIRDS 0 rnd (birdState s)) s.

(** "Update bird positions (move down)" and "Deactivate birds that go
    off screen": the pool and the score after the pass. *)
Fixpoint moveLoop (n i : nat) (speed : float) (bs : list Bird) (sc : Z)
  : list Bird * Z :=
  match n with
  | O => (bs, sc)
  | S n' =>
      match bs !! i with
      | Some b =>
          if active b then
            let y' := add (y b) speed in
            if gtb y' (of_int SCREEN_HEIGHT)
            then moveLoop n' (S i) speed (<[i := mkBird (x b) y' false]> bs)
                          (Int.wrap32 (sc + 1))
            else moveLoop n' (S i) speed (<[i := mkBird (x b) y' true]> bs) sc
          else moveLoop n' (S i) speed bs sc
      | None => (bs, sc)
      end
  end.

Definition moveBirds (s : State) : State :=
  let '(bs, sc) := moveLoop MAX_BIRDS 0 (scrollSpeed s) (birdState s) (score s) in
  set_score sc (set_birds bs s).

(** "Simple bounding box collision" of the plane at pixel column
    [planePixelX] with one bird. *)
Definition collides (planePixelX : float) (b : Bird) : bool :=
  let collisionX :=
    ltb planePixelX (add (x b) (of_int BIRD_SIZE))
    && gtb (add planePixelX (of_int PLANE_SIZE)) (x b) in
  let collisionY :=
    ltb (of_int PLANE_Y) (add (y b) (of_int BIRD_SIZE))
    && gtb (of_int (PLANE_Y + PLANE_SIZE)) (y b) in
  collisionX && collisionY.

(** The loop of [checkCollisions]: whether it reaches its [break]. *)
Fixpoint collisionLoop (n i : nat) (planePixelX : float) (bs : list Bird) : bool :=
  match n with
  | O => false
  | S n' =>
      match bs !! i with
      | Some b =>
          if negb (active b) then collisionLoop n' (S i) planePixelX bs
          else if collides planePixelX b then true
          else collisionLoop n' (S i) planePixelX bs
      | None => false
      end
  end.

Definition planePixelX (s : State) : float :=
  mul (planeX s) (of_int (SCREEN_WIDTH - PLANE_SIZE)).

Definition checkCollisions (s : State) : State :=
  if gameOver s then s
  else if collisionLoop MAX_BIRDS 0 (planePixelX s) (birdState s)
  then playMissSound (set_gameOver true s)
  else s.

(** The plane update of [updateGame]; [sample] is
    [imu->getSample().accelX]. *)
Definition updatePlane (sample : float) (s : State) : State :=
  let '(f, roll) := EMA.update (rollFilter s) sample in
  let targetX := clamp (div (add roll (lit 3 10)) (lit 6 10)) (of_int 0) (of_int 1) in
  let p := add (planeX s) (mul (sub targetX (planeX s)) PLANE_SPEED) in
  set_planeX (clamp p (of_int 0) (of_int 1)) (set_rollFilter f s).

(** "Gradually increase difficulty every 10 points". *)
Definition adjustDifficulty (s : State) : State :=
  if (0 <? score s) && (Z.rem (score s) 10 =? 0) && ltb (scrollSpeed s) MAX_SPEED then
    if negb (score s =? lastDifficultyScore s) then
      set_lastDifficultyScore (score s)
        (set_scrollSpeed (min (add (scrollSpeed s) SPEED_INCREMENT) MAX_SPEED) s)
    else s
  else s.

(** [updateGame]: [rnd] is the value [esp_random()] has for this frame
    (read only if a bird is spawned), [sample] the accelerometer
    reading. *)
(** The first part of [updateGame], up to the call of
    [checkCollisions]: the frame counter, the periodic spawn, the move
    and reap pass.  [rnd] is the value [esp_random()] has for this frame
    (read only if a bird is spawned). *)
Definition advance (rnd : Z) (s : State) : State :=
  let s1 := set_frameCounter (Int.wrap32 (frameCounter s + 1)) s in
  let s2 := if Z.rem (frameCounter s1) SPAWN_INTERVAL =? 0
            then spawnBird rnd s1 else s1 in
  moveBirds s2.

(** [updateGame]; [sample] is the accelerometer reading. *)
Definition updateGame (rnd : Z) (sample : float) (s : State) : State :=
  if gameOver s then s
  else adjustDifficulty (updatePlane sample (checkCollisions (advance rnd s))).

(** "Reset all birds". *)
Fixpoint resetLoop (n i : nat) (bs : list Bird) : list Bird :=
  match n with
  | O => bs
  | S n' =>
      match bs !! i with
      | Some b => resetLoop n' (S i) (<[i := mkBird (x b) (y b) false]> bs)
      | None => bs
      end
  end.

Definition restart (s : State) : State :=
  set_birds (resetLoop MAX_BIRDS 0 (birdState s))
    (set_frameCounter 0
       (set_scrollSpeed INITIAL_SPEED
          (set_gameOver false
             (set_lastDifficultyScore 0 (set_score 0 s))))).

Definition handleInput (ev : option Input.Event) (s : State) : State * bool :=
  match ev with
  | Some (Input.InputEvent d) =>
      match Input.action d with
      | Input.Press =>
          match Input.btn d with
          | Input.Alt => (s, true)
          | Input.Select => if gameOver s then (restart s, false) else (s, false)
          | Input.OtherButton => (s, false)
          end
      | Input.Release => (s, false)
      end
  | Some Input.OtherEvent => (s, false)
  | None => (s, false)
  end.

(** The constructor: every slot inactive, at [(0, -BIRD_SIZE)]. *)
Definition construct : State :=
  mkState (lit 1 2)
          (replicate MAX_BIRDS (mkBird (of_int 0) (of_int (- BIRD_SIZE)) false))
          0 0 false INITIAL_SPEED 0 (EMA.make filterStrength) false [].

(** [onStart]: [sample] is [imu->getSample().accelX]. *)
Definition onStart (sample : float) (s : State) : State :=
  set_running true (set_rollFilter (EMA.reset (rollFilter s) sample) s).

Definition onStop (s : State) : State := set_running false s.

Inductive Step : Type :=
| Tick (rnd : Z) (sample : float)
| Poll (ev : option Input.Event).

Definition isRestartStep (st : Step) : bool :=
  match st with
  | Tick _ _ => false
  | Poll ev => Input.isRestart ev
  end.

Definition step (st : Step) (s : State) : State :=
  match st with
  | Tick rnd sample => updateGame rnd sample s
  | Poll ev => fst (handleInput ev s)
  end.

Fixpoint run (l : list Step) (s : State) : State :=
  match l with
  | [] => s
  | st :: l' => run l' (step st s)
  end.

(** The pool on its own: the operations that touch the activation
    flags. *)
Inductive PoolOp : Type :=
| Spawn (rnd : Z)
| Reap (speed : float)
| Clear.

Definition poolStep (op : PoolOp) (bs : list Bird) : list Bird :=
  match op with
  | Spawn rnd => spawnLoop MAX_BIRDS 0 rnd bs
  | Reap speed => fst (moveLoop MAX_BIRDS 0 speed bs 0)
  | Clear => resetLoop MAX_BIRDS 0 bs
  end.

Definition poolRun (ops : list PoolOp) (bs : list Bird) : list Bird :=
  foldl (fun acc op => poolStep op acc) bs ops.

(** The array has its [MAX_BIRDS] slots. *)
Definition wf (s : State) : Prop := length (birdState s) = MAX_BIRDS.

Definition activeCount (bs : list Bird) : nat :=
  length (filter (fun b => active b = true) bs).

(** The values [scrollSpeed] takes in a session: [INITIAL_SPEED], then
    one [std::min(scrollSpeed + SPEED_INCREMENT, MAX_SPEED)] after the
    other. *)
Definition bump (v : float) : float := min (add v SPEED_INCREMENT) MAX_SPEED.

Fixpoint speedLevelsFrom (n : nat) (v : float) : list float :=
  match n with
  | O => [v]
  | S n' => v :: speedLevelsFrom n' (bump v)
  end.

Definition speedLevels : list float := speedLevelsFrom 21 INITIAL_SPEED.

(** What holds of the progression in every state of a session: the
    speed is one of the levels, the last adjusted score is not ahead of
    the score, and a score that calls for an adjustment has had it. *)
Definition sessionInv (s : State) : Prop :=
  In (scrollSpeed s) speedLevels
  /\ 0 <= lastDifficultyScore s <= score s
  /\ (0 < score s -> Z.rem (score s) 10 = 0 ->
      ltb (scrollSpeed s) MAX_SPEED = true ->
      lastDifficultyScore s = score s).

End BirdDodger.


(** * Scenarios

    Concrete sessions, used to run the code of the screens. *)

Module Scenario.
Import F32.

(** Stand-ins for the C library at the angle 0. *)
Definition cos0 (a : float) : float := of_int 1.
Definition sin0 (a : float) : float := of_int 0.

Definition pong (b : Pong.Ball) (paddleY : float) (score : Z) (over : bool)
  : Pong.State :=
  Pong.mkState b paddleY score over (EMA.mk Pong.filterStrength (of_int 0)) true [].

(** The ball one step away from a paddle that covers y in [52,76]. *)
Definition paddleHit : Pong.State :=
  pong (Pong.mkBall (of_int 5) (of_int 64) (lit (-3) 2) (of_int 0)) (lit 1 2) 0 false.

(** The same ball, one step away from the left edge, with the paddle at
    y in [0,24]. *)
Definition paddleMiss : Pong.State :=
  pong (Pong.mkBall (of_int 1) (of_int 64) (lit (-3) 2) (of_int 0)) (of_int 0) 7 false.

(** The ball one step away from the top right corner. *)
Definition corner : Pong.State :=
  pong (Pong.mkBall (of_int 123) (of_int 1) (lit 3 2) (lit (-3) 2)) (lit 1 2) 0 false.

(** The ball one step away from the top wall, in the middle of the
    field. *)
Definition topWall : Pong.State :=
  pong (Pong.mkBall (of_int 64) (of_int 1) (of_int 0) (lit (-3) 2)) (lit 1 2) 0 false.

(** A finished game, the paddle left near the top. *)
Definition pongOver : Pong.State :=
  Pong.mkState (Pong.mkBall (lit (-1) 2) (of_int 64) (lit (-3) 2) (of_int 0))
               (lit 1 4) 7 true (EMA.mk Pong.filterStrength (of_int 1)) true
               [MissSound].

Definition bird (xy : Z * Z) (a : bool) : BirdDodger.Bird :=
  BirdDodger.mkBird (of_int (fst xy)) (of_int (snd xy)) a.

Definition dodger (bs : list BirdDodger.Bird) (score last : Z) (over : bool)
                  (frame : Z) : BirdDodger.State :=
  BirdDodger.mkState (lit 1 2) bs score last over BirdDodger.INITIAL_SPEED frame
                     (EMA.mk BirdDodger.filterStrength (of_int 1)) true [].

Definition idle : BirdDodger.Bird := bird (0, -6) false.

(** The plane at pixel column 60; a bird one step above it, another one
    far away. *)
Definition dodgerCollide : BirdDodger.State :=
  dodger [bird (10, 20) true; bird (60, 99) true; idle; idle; idle] 3 0 false 7.

(** The tenth bird is about to leave the screen. *)
Definition dodgerReap : BirdDodger.State :=
  dodger [bird (10, 128) true; bird (100, 40) true; idle; idle; idle] 9 0 false 7.

(** A finished game. *)
Definition dodgerOver : BirdDodger.State :=
  BirdDodger.mkState (lit 1 4)
    [bird (10, 20) true; bird (50, 101) true; idle; idle; idle]
    12 10 true (lit 11 10) 431
    (EMA.mk BirdDodger.filterStrength (of_int 1)) true [MissSound].

(** Every slot taken. *)
Definition fullPool : list BirdDodger.Bird :=
  [bird (10, 0) true; bird (30, 20) true; bird (50, 40) true;
   bird (70, 60) true; bird (90, 80) true].

Definition pressSelect : option Input.Event :=
  Some (Input.InputEvent (Input.mkData Input.Select Input.Press)).
Definition pressAlt : option Input.Event :=
  Some (Input.InputEvent (Input.mkData Input.Alt Input.Press)).

(** The plane at pixel column 60, under two birds at once. *)
Definition dodgerOverlap : BirdDodger.State :=
  dodger [bird (10, 20) true; bird (58, 100) true; bird (62, 102) true; idle; idle]
         3 0 false 7.


End Scenario.

(** * The rest of the screens

    The parts of the two screens that the session core leaves to its
    surroundings: the per-slot reading of the pool loops, the rendering
    hand-off of [updateUI] and the frame pacing of [gameLoop]. *)

(** ** The pool, slot by slot *)

Module Slot.
Import F32.

(** Whether the move pass reaps the bird: it is active and the moved
    ordinate is beyond [SCREEN_HEIGHT]. *)
Definition leavesScreen (speed : float) (b : BirdDodger.Bird) : bool :=
  BirdDodger.active b
  && gtb (add (BirdDodger.y b) speed) (of_int BirdDodger.SCREEN_HEIGHT).

(** What one iteration of the move loop leaves in a slot. *)
Definition moved (speed : float) (b : BirdDodger.Bird) : BirdDodger.Bird :=
  if BirdDodger.active b
  then BirdDodger.mkBird (BirdDodger.x b) (add (BirdDodger.y b) speed)
                         (negb (gtb (add (BirdDodger.y b) speed)
                                    (of_int BirdDodger.SCREEN_HEIGHT)))
  else b.

(** The session as the constructor or a restart leaves it: running, no
    frame counted, no point scored, the speed at its floor, no bird on
    the screen. *)
Definition fresh (s : BirdDodger.State) : Prop :=
  BirdDodger.wf s
  /\ BirdDodger.gameOver s = false
  /\ BirdDodger.frameCounter s = 0
  /\ BirdDodger.score s = 0
  /\ BirdDodger.scrollSpeed s = BirdDodger.INITIAL_SPEED
  /\ Forall (fun b => BirdDodger.active b = false) (BirdDodger.birdState s).

(** The game thread alone: one [updateGame] per input. *)
Definition ticks (inputs : list (Z * float)) : list BirdDodger.Step :=
  (fun i => BirdDodger.Tick (fst i) (snd i)) <$> inputs.

End Slot.

(** ** The rendering hand-off *)

Module Render.

(** [snprintf(buf, size, ...)] keeps the first [size - 1] characters of
    the formatted text. *)
Definition snprintf (size : nat) (text : string) : string :=
  String.substring 0 (size - 1) text.

Definition newline : Ascii.ascii := Ascii.ascii_of_nat 10.

(** The text that [updateUI] formats: ["Score: %d\nGame Over!"] or
    ["Score: %d"]. *)
Definition scoreText (score : Z) (gameOver : bool) : string :=
  if gameOver
  then "Score: " +:+ pretty score +:+ String newline "Game Over!"
  else "Score: " +:+ pretty score.

(** The label both screens show: [char buf[32]]. *)
Definition scoreLabel (score : Z) (gameOver : bool) : string :=
  snprintf 32 (scoreText score gameOver).

(** The [LV_OBJ_FLAG_HIDDEN] flags of the bird sprites [birds[i]], beside
    the pool: the loops of [BirdDodger] with the flag they set or clear
    next to the slot they write. *)
Definition hiddenOf (bs : list BirdDodger.Bird) : list bool :=
  (fun b => negb (BirdDodger.active b)) <$> bs.

Fixpoint spawnLoop (n i : nat) (rnd : Z) (bs : list BirdDodger.Bird)
         (hs : list bool) : list BirdDodger.Bird * list bool :=
  match n with
  | O => (bs, hs)
  | S n' =>
      match bs !! i with
      | Some b =>
          if negb (BirdDodger.active b)
          then (<[i := BirdDodger.freshBird rnd]> bs, <[i := false]> hs)
          else spawnLoop n' (S i) rnd bs hs
      | None => (bs, hs)
      end
  end.

Fixpoint moveLoop (n i : nat) (speed : F32.float) (bs : list BirdDodger.Bird)
         (hs : list bool) (sc : Z) : list BirdDodger.Bird * list bool * Z :=
  match n with
  | O => (bs, hs, sc)
  | S n' =>
      match bs !! i with
      | Some b =>
          if BirdDodger.active b then
            let y' := F32.add (BirdDodger.y b) speed in
            if F32.gtb y' (F32.of_int BirdDodger.SCREEN_HEIGHT)
            then moveLoop n' (S i) speed
                          (<[i := BirdDodger.mkBird (BirdDodger.x b) y' false]> bs)
                          (<[i := true]> hs) (Int.wrap32 (sc + 1))
            else moveLoop n' (S i) speed
                          (<[i := BirdDodger.mkBird (BirdDodger.x b) y' true]> bs)
                          hs sc
          else moveLoop n' (S i) speed bs hs sc
      | None => (bs, hs, sc)
      end
  end.

Fixpoint resetLoop (n i : nat) (bs : list BirdDodger.Bird) (hs : list bool)
  : list BirdDodger.Bird * list bool :=
  match n with
  | O => (bs, hs)
  | S n' =>
      match bs !! i with
      | Some b =>
          resetLoop n' (S i)
                    (<[i := BirdDodger.mkBird (BirdDodger.x b) (BirdDodger.y b) false]> bs)
                    (<[i := true]> hs)
      | None => (bs, hs)
      end
  end.

(** The screen: the session and the sprite flags. *)
Definition Screen : Type := BirdDodger.State * list bool.

(** The constructor hides every sprite. *)
Definition construct : Screen :=
  (BirdDodger.construct, replicate BirdDodger.MAX_BIRDS true).

Definition spawnBird (rnd : Z) (v : Screen) : Screen :=
  let '(bs, hs) :=
    spawnLoop BirdDodger.MAX_BIRDS 0 rnd (BirdDodger.birdState (fst v)) (snd v) in
  (BirdDodger.set_birds bs (fst v), hs).

Definition moveBirds (v : Screen) : Screen :=
  let '(bs, hs, sc) :=
    moveLoop BirdDodger.MAX_BIRDS 0 (BirdDodger.scrollSpeed (fst v))
             (BirdDodger.birdState (fst v)) (snd v) (BirdDodger.score (fst v)) in
  (BirdDodger.set_score sc (BirdDodger.set_birds bs (fst v)), hs).

Definition updateGame (rnd : Z) (sample : F32.float) (v : Screen) : Screen :=
  if BirdDodger.gameOver (fst v) then v
  else
    let s1 := BirdDodger.set_frameCounter
                (Int.wrap32 (BirdDodger.frameCounter (fst v) + 1)) (fst v) in
    let v2 := if Z.rem (BirdDodger.frameCounter s1) BirdDodger.SPAWN_INTERVAL =? 0
              then spawnBird rnd (s1, snd v) else (s1, snd v) in
    let v3 := moveBirds v2 in
    (BirdDodger.adjustDifficulty
       (BirdDodger.updatePlane sample (BirdDodger.checkCollisions (fst v3))),
     snd v3).

Definition restart (v : Screen) : Screen :=
  let '(bs, hs) :=
    resetLoop BirdDodger.MAX_BIRDS 0 (BirdDodger.birdState (fst v)) (snd v) in
  (BirdDodger.set_birds bs
     (BirdDodger.set_frameCounter 0
        (BirdDodger.set_scrollSpeed BirdDodger.INITIAL_SPEED
           (BirdDodger.set_gameOver false
              (BirdDodger.set_lastDifficultyScore 0
                 (BirdDodger.set_score 0 (fst v)))))),
   hs).

Definition handleInput (ev : option Input.Event) (v : Screen) : Screen :=
  match ev with
  | Some (Input.InputEvent d) =>
      match Input.action d with
      | Input.Press =>
          match Input.btn d with
          | Input.Alt => v
          | Input.Select => if BirdDodger.gameOver (fst v) then restart v else v
          | Input.OtherButton => v
          end
      | Input.Release => v
      end
  | Some Input.OtherEvent => v
  | None => v
  end.

Definition step (st : BirdDodger.Step) (v : Screen) : Screen :=
  match st with
  | BirdDodger.Tick rnd sample => updateGame rnd sample v
  | BirdDodger.Poll ev => handleInput ev v
  end.

Fixpoint run (l : list BirdDodger.Step) (v : Screen) : Screen :=
  match l with
  | [] => v
  | st :: l' => run l' (step st v)
  end.

End Render.

(** ** The frame pacing of [gameLoop] *)

Module Clock.

(** [TickType_t elapsed = xTaskGetTickCount() - startTick]: the tick
    counter is a [uint32_t], the subtraction is unsigned. *)
Definition elapsed (startTick now : Z) : Z := Int.uwrap32 (now - startTick).

(** The argument of [vTaskDelay], if it is called: [frameTime] is
    [pdMS_TO_TICKS(16)]. *)
Definition frameDelay (frameTime startTick now : Z) : option Z :=
  if elapsed startTick now <? frameTime
  then Some (Int.uwrap32 (frameTime - elapsed startTick now))
  else None.

(** The length of one iteration of the loop, in ticks, when the update
    pass took [work] ticks. *)
Definition frameLength (frameTime startTick work : Z) : Z :=
  match frameDelay frameTime startTick (Int.uwrap32 (startTick + work)) with
  | Some d => work + d
  | None => work
  end.

End Clock.

(** * Properties *)

Arguments F32.add : simpl never.
Arguments F32.sub : simpl never.
Arguments F32.mul : simpl never.
Arguments F32.div : simpl never.
Arguments F32.neg : simpl never.
Arguments F32.ltb : simpl never.
Arguments F32.leb : simpl never.
Arguments F32.gtb : simpl never.
Arguments F32.geb : simpl never.
Arguments F32.of_int : simpl never.
Arguments F32.lit : simpl never.
Arguments F32.clamp : simpl never.
Arguments F32.min : simpl never.
Arguments Int.wrap32 : simpl never.

(** ** The constants, as bit patterns *)

Example lit_0_3 : F32.lit 3 10 = S754_finite false 10066330 (-25).
Proof. vm_compute. reflexivity. Qed.

Example lit_0_15 : F32.lit 15 100 = S754_finite false 10066330 (-26).
Proof. vm_compute. reflexivity. Qed.

Example lit_0_1 : F32.lit 1 10 = S754_finite false 13421773 (-27).
Proof. vm_compute. reflexivity. Qed.

(** ** Comparisons against the playfield's bounds *)

Lemma leb_0_leb_4 (v : F32.float) :
  F32.leb v (F32.of_int 0) = true -> F32.leb v (F32.of_int 4) = true.
Proof.
  intros H.
  destruct v as [sg|sg| |sg m e]; try destruct sg;
    try (vm_compute in H; discriminate H); vm_compute; reflexivity.
Qed.

Lemma leb_4_not_geb_124 (v : F32.float) :
  F32.leb v (F32.of_int 4) = true -> F32.geb v (F32.of_int 124) = false.
Proof.
  intros H.
  destruct v as [sg|sg| |sg m e].
  - vm_compute; reflexivity.
  - destruct sg; [vm_compute; reflexivity | vm_compute in H; discriminate H].
  - vm_compute in H; discriminate H.
  - destruct sg; [vm_compute; reflexivity | ].
    revert H. unfold F32.leb, F32.geb, SFleb.
    replace (F32.of_int 4) with (S754_finite false 8388608 (-21))
      by (vm_compute; reflexivity).
    replace (F32.of_int 124) with (S754_finite false 16252928 (-17))
      by (vm_compute; reflexivity).
    cbn [SFcompare].
    destruct (Z.compare_spec e (-21)) as [He|He|He];
      destruct (Z.compare_spec e (-17)) as [He'|He'|He']; try lia; congruence.
Qed.

Lemma leb_0_not_geb_124 (v : F32.float) :
  F32.leb v (F32.of_int 0) = true -> F32.geb v (F32.of_int 124) = false.
Proof. intros H. apply leb_4_not_geb_124, leb_0_leb_4, H. Qed.

Lemma wrap32_id (z : Z) : Int.INT_MIN <= z <= Int.INT_MAX -> Int.wrap32 z = z.
Proof.
  unfold Int.INT_MIN, Int.INT_MAX, Int.wrap32. intros H.
  rewrite Z.mod_small; lia.
Qed.

(** ** PongGame: what each part of a tick touches *)

Lemma pong_wallCheck_frame (s : Pong.State) :
  Pong.x (Pong.ballState (Pong.wallCheck s)) = Pong.x (Pong.ballState s)
  /\ Pong.y (Pong.ballState (Pong.wallCheck s)) = Pong.y (Pong.ballState s)
  /\ Pong.vx (Pong.ballState (Pong.wallCheck s)) = Pong.vx (Pong.ballState s)
  /\ Pong.paddleY (Pong.wallCheck s) = Pong.paddleY s
  /\ Pong.score (Pong.wallCheck s) = Pong.score s
  /\ Pong.gameOver (Pong.wallCheck s) = Pong.gameOver s
  /\ Pong.pitchFilter (Pong.wallCheck s) = Pong.pitchFilter s.
Proof.
  unfold Pong.wallCheck.
  destruct (_ || _); simpl; repeat split; reflexivity.
Qed.

Lemma pong_wallCheck_vy (s : Pong.State) :
  Pong.vy (Pong.ballState (Pong.wallCheck s)) =
  if F32.leb (Pong.y (Pong.ballState s)) (F32.of_int 0)
     || F32.geb (Pong.y (Pong.ballState s))
                (F32.of_int (Pong.SCREEN_HEIGHT - Pong.BALL_SIZE))
  then F32.neg (Pong.vy (Pong.ballState s))
  else Pong.vy (Pong.ballState s).
Proof.
  unfold Pong.wallCheck. destruct (_ || _); reflexivity.
Qed.

Lemma pong_paddleTop_wallCheck (s : Pong.State) :
  Pong.paddleTop (Pong.wallCheck s) = Pong.paddleTop s.
Proof.
  unfold Pong.paddleTop.
  now destruct (pong_wallCheck_frame s) as (_ & _ & _ & -> & _).
Qed.

Lemma pong_paddleTop_moveBall (s : Pong.State) :
  Pong.paddleTop (Pong.moveBall s) = Pong.paddleTop s.
Proof. reflexivity. Qed.

Lemma pong_updatePaddle_frame (sample : F32.float) (s : Pong.State) :
  Pong.ballState (Pong.updatePaddle sample s) = Pong.ballState s
  /\ Pong.score (Pong.updatePaddle sample s) = Pong.score s
  /\ Pong.gameOver (Pong.updatePaddle sample s) = Pong.gameOver s
  /\ Pong.audio (Pong.updatePaddle sample s) = Pong.audio s
  /\ Pong.pitchFilter (Pong.updatePaddle sample s)
     = fst (EMA.update (Pong.pitchFilter s) sample).
Proof. unfold Pong.updatePaddle. simpl. repeat split; reflexivity. Qed.

(** The right-wall test after the paddle-side test: the two never both
    resolve. *)
Lemma pong_paddle_excludes_right (s : Pong.State) :
  F32.leb (Pong.x (Pong.ballState s)) (F32.of_int Pong.PADDLE_WIDTH) = true ->
  Pong.rightWallCheck (Pong.paddleCheck s) = Pong.paddleCheck s.
Proof.
  intros Hx. unfold Pong.paddleCheck. rewrite Hx.
  destruct (_ && _).
  - unfold Pong.rightWallCheck. cbn [Pong.ballState Pong.playHitSound Pong.play
      Pong.set_score Pong.set_ball Pong.x].
    replace (F32.geb _ _) with false by (vm_compute; reflexivity). reflexivity.
  - destruct (F32.leb _ (F32.of_int 0)) eqn:H0.
    + unfold Pong.rightWallCheck. cbn [Pong.ballState Pong.playMissSound Pong.play
        Pong.set_gameOver Pong.x].
      change (Pong.SCREEN_WIDTH - Pong.BALL_SIZE) with 124.
      now rewrite (leb_0_not_geb_124 _ H0).
    + unfold Pong.rightWallCheck.
      change (Pong.SCREEN_WIDTH - Pong.BALL_SIZE) with 124.
      now rewrite (leb_4_not_geb_124 _ Hx).
Qed.

(** ** PongGame: the collision resolver *)

(** The right wall inverts [vx] and puts the ball back on the boundary,
    inside the field. *)
Lemma pong_rightWall_resolution (s : Pong.State) :
  F32.geb (Pong.x (Pong.ballState s))
          (F32.of_int (Pong.SCREEN_WIDTH - Pong.BALL_SIZE)) = true ->
  let b' := Pong.ballState (Pong.rightWallCheck s) in
  Pong.vx b' = F32.neg (Pong.vx (Pong.ballState s))
  /\ Pong.x b' = F32.of_int (Pong.SCREEN_WIDTH - Pong.BALL_SIZE)
  /\ F32.leb (F32.of_int 0) (Pong.x b') = true
  /\ F32.leb (Pong.x b') (F32.of_int (Pong.SCREEN_WIDTH - Pong.BALL_SIZE)) = true.
Proof.
  intros H. unfold Pong.rightWallCheck. rewrite H. simpl.
  repeat split; vm_compute; reflexivity.
Qed.

(** C5.  The code at the failing input: a ball that crosses the top wall
    has [vy] inverted, and keeps the position it reached, above the
    field; the ordinate is not put back on the boundary. *)
Theorem top_wall_not_clamped :
  let s' := Pong.updateGame (F32.of_int 0) Scenario.topWall in
  Pong.vy (Pong.ballState s') = F32.lit 3 2
  /\ Pong.y (Pong.ballState s') = F32.lit (-1) 2
  /\ F32.ltb (Pong.y (Pong.ballState s')) (F32.of_int 0) = true
  /\ Pong.audio s' = [HitSound].
Proof. vm_compute. repeat split; reflexivity. Qed.

(** C4, as stated, fails: in one tick the ball in the corner gets the
    top-wall resolution and the right-wall resolution. *)
Lemma corner_two_resolutions :
  ~ (Pong.resolutions Scenario.corner
       (Pong.updateGame (F32.of_int 0) Scenario.corner) <= 1)%nat.
Proof. vm_compute. intros H. inversion H as [|n H1]. inversion H1. Qed.

Lemma pong_resolutions_step (s : Pong.State) :
  (length (Pong.audio (Pong.wallCheck s)) <= S (length (Pong.audio s)))%nat
  /\ (length (Pong.audio (Pong.paddleCheck s)) <= S (length (Pong.audio s)))%nat
  /\ (length (Pong.audio (Pong.rightWallCheck s)) <= S (length (Pong.audio s)))%nat
  /\ (length (Pong.audio s) <= length (Pong.audio (Pong.wallCheck s)))%nat.
Proof.
  unfold Pong.wallCheck, Pong.paddleCheck, Pong.rightWallCheck.
  repeat split;
    repeat match goal with |- context [if ?c then _ else _] => destruct c end;
    simpl; lia.
Qed.

(** The three tests of [PongGame] run in the order of the source, each
    on the state the previous one left; the paddle-side test and the
    right-wall test never both resolve, whereas the top/bottom test
    resolves independently of them: a tick applies at most two
    resolutions to the ball. *)
Lemma pong_checks_order (s : Pong.State) :
  Pong.checkCollisions s
  = Pong.rightWallCheck (Pong.paddleCheck (Pong.wallCheck s))
  /\ (Pong.paddleCheck (Pong.wallCheck s) <> Pong.wallCheck s ->
      Pong.checkCollisions s = Pong.paddleCheck (Pong.wallCheck s))
  /\ (Pong.resolutions s (Pong.checkCollisions s) <= 2)%nat.
Proof.
  split; [reflexivity|]. split.
  - intros Hne. unfold Pong.checkCollisions.
    destruct (F32.leb (Pong.x (Pong.ballState (Pong.wallCheck s)))
                      (F32.of_int Pong.PADDLE_WIDTH)) eqn:Hx.
    + now apply pong_paddle_excludes_right.
    + exfalso. apply Hne. unfold Pong.paddleCheck. now rewrite Hx.
  - unfold Pong.resolutions, Pong.checkCollisions.
    destruct (F32.leb (Pong.x (Pong.ballState (Pong.wallCheck s)))
                      (F32.of_int Pong.PADDLE_WIDTH)) eqn:Hx.
    + rewrite (pong_paddle_excludes_right _ Hx).
      pose proof (pong_resolutions_step s) as (H1 & _).
      pose proof (pong_resolutions_step (Pong.wallCheck s)) as (_ & H2 & _).
      lia.
    + replace (Pong.paddleCheck (Pong.wallCheck s)) with (Pong.wallCheck s)
        by (unfold Pong.paddleCheck; now rewrite Hx).
      pose proof (pong_resolutions_step s) as (H1 & _).
      pose proof (pong_resolutions_step (Pong.wallCheck s)) as (_ & _ & H3 & _).
      lia.
Qed.

(** ** PongGame: paddle hit and miss *)

Lemma pong_updateGame_playing (sample : F32.float) (s : Pong.State) :
  Pong.gameOver s = false ->
  Pong.updateGame sample s
  = Pong.updatePaddle sample (Pong.checkCollisions (Pong.moveBall s)).
Proof. intros H. unfold Pong.updateGame. now rewrite H. Qed.

(** C6.  A tick of a running game in which the moved ball is at
    [x <= PADDLE_WIDTH] with its [y] within the paddle: [vx] changes
    sign, [x] is put on the paddle's face, [vy] (as the top/bottom test
    left it) receives [(hitPos - 0.5) * 0.5], the score grows by one and
    the game goes on. *)
Theorem paddle_hit (sample : F32.float) (s : Pong.State) :
  let b := Pong.ballState (Pong.moveBall s) in
  let vy_walls :=
    if F32.leb (Pong.y b) (F32.of_int 0)
       || F32.geb (Pong.y b) (F32.of_int (Pong.SCREEN_HEIGHT - Pong.BALL_SIZE))
    then F32.neg (Pong.vy b) else Pong.vy b in
  let hitFraction :=
    F32.div (F32.sub (Pong.y b) (Pong.paddleTop s)) (F32.of_int Pong.PADDLE_HEIGHT) in
  let s' := Pong.updateGame sample s in
  Pong.gameOver s = false ->
  Int.INT_MIN <= Pong.score s < Int.INT_MAX ->
  F32.leb (Pong.x b) (F32.of_int Pong.PADDLE_WIDTH) = true ->
  F32.geb (Pong.y b) (Pong.paddleTop s) = true ->
  F32.leb (Pong.y b) (Pong.paddleBottom s) = true ->
  Pong.vx (Pong.ballState s') = F32.neg (Pong.vx (Pong.ballState s))
  /\ Pong.x (Pong.ballState s') = F32.of_int Pong.PADDLE_WIDTH
  /\ Pong.vy (Pong.ballState s')
     = F32.add vy_walls (F32.mul (F32.sub hitFraction (F32.lit 1 2)) (F32.lit 1 2))
  /\ Pong.score s' = Pong.score s + 1
  /\ Pong.gameOver s' = false.
Proof.
  intros b vy_walls hitFraction s' Hplay Hscore Hx Htop Hbot.
  subst s'. rewrite (pong_updateGame_playing _ _ Hplay).
  destruct (pong_updatePaddle_frame sample (Pong.checkCollisions (Pong.moveBall s)))
    as (-> & -> & -> & _).
  set (m := Pong.moveBall s) in *.
  destruct (pong_wallCheck_frame m) as (Wx & Wy & Wvx & Wp & Wsc & Wgo & _).
  pose proof (pong_wallCheck_vy m) as Wvy.
  assert (Hx' : F32.leb (Pong.x (Pong.ballState (Pong.wallCheck m)))
                        (F32.of_int Pong.PADDLE_WIDTH) = true)
    by (rewrite Wx; exact Hx).
  unfold Pong.checkCollisions.
  rewrite (pong_paddle_excludes_right _ Hx').
  unfold Pong.paddleCheck. rewrite Hx'.
  unfold Pong.paddleBottom, Pong.spin, Pong.hitPos.
  rewrite (pong_paddleTop_wallCheck m), Wy.
  change (Pong.paddleTop m) with (Pong.paddleTop s).
  unfold Pong.paddleBottom in Hbot. fold b. rewrite Htop, Hbot.
  cbn [andb Pong.playHitSound Pong.play Pong.set_score Pong.set_ball
       Pong.ballState Pong.vx Pong.x Pong.vy Pong.score Pong.gameOver].
  rewrite Wvx, Wvy, Wsc, Wgo. fold b.
  repeat split; try reflexivity.
  - apply wrap32_id. unfold Int.INT_MIN, Int.INT_MAX in *. lia.
  - exact Hplay.
Qed.

(** Scenario A of the specification: the paddle covers y in [52,76]. *)
Lemma paddle_hit_witness :
  let s' := Pong.updateGame (F32.of_int 0) Scenario.paddleHit in
  Pong.vx (Pong.ballState s') = F32.lit 3 2
  /\ Pong.x (Pong.ballState s') = F32.of_int 4
  /\ Pong.vy (Pong.ballState s') = F32.of_int 0
  /\ Pong.score s' = 1
  /\ Pong.gameOver s' = false.
Proof.
  refine (paddle_hit (F32.of_int 0) Scenario.paddleHit _ _ _ _ _).
  - reflexivity.
  - unfold Int.INT_MIN, Int.INT_MAX. simpl. lia.
  - vm_compute. reflexivity.
  - vm_compute. reflexivity.
  - vm_compute. reflexivity.
Defined.

(** ** BirdDodger: the loops over the pool *)

Lemma spawnLoop_length (n : nat) : forall (i : nat) (rnd : Z) (bs : list BirdDodger.Bird),
  length (BirdDodger.spawnLoop n i rnd bs) = length bs.
Proof.
  induction n as [|n IH]; intros i rnd bs; simpl; [reflexivity|].
  destruct (bs !! i) as [b|]; [|reflexivity].
  destruct (negb (BirdDodger.active b)); [apply length_insert | apply IH].
Qed.

Lemma moveLoop_length (n : nat) :
  forall (i : nat) (v : F32.float) (bs : list BirdDodger.Bird) (sc : Z),
  length (fst (BirdDodger.moveLoop n i v bs sc)) = length bs.
Proof.
  induction n as [|n IH]; intros i v bs sc; simpl; [reflexivity|].
  destruct (bs !! i) as [b|]; [|reflexivity].
  destruct (BirdDodger.active b); [|apply IH].
  destruct (F32.gtb _ _); rewrite IH; apply length_insert.
Qed.

Lemma resetLoop_length (n : nat) : forall (i : nat) (bs : list BirdDodger.Bird),
  length (BirdDodger.resetLoop n i bs) = length bs.
Proof.
  induction n as [|n IH]; intros i bs; simpl; [reflexivity|].
  destruct (bs !! i) as [b|]; [|reflexivity].
  rewrite IH. apply length_insert.
Qed.

(** The reset loop leaves the slots below its index alone. *)
Lemma resetLoop_lookup_lt (n : nat) :
  forall (i j : nat) (bs : list BirdDodger.Bird),
  (j < i)%nat -> BirdDodger.resetLoop n i bs !! j = bs !! j.
Proof.
  induction n as [|n IH]; intros i j bs Hj; simpl; [reflexivity|].
  destruct (bs !! i) as [b|]; [|reflexivity].
  rewrite IH by lia. apply list_lookup_insert_ne. lia.
Qed.

(** Every slot it visits ends inactive. *)
Lemma resetLoop_inactive (n : nat) :
  forall (i j : nat) (bs : list BirdDodger.Bird) (b : BirdDodger.Bird),
  (i <= j < i + n)%nat ->
  BirdDodger.resetLoop n i bs !! j = Some b -> BirdDodger.active b = false.
Proof.
  induction n as [|n IH]; intros i j bs b Hj Hb; [lia|].
  simpl in Hb. destruct (bs !! i) as [b0|] eqn:Hi.
  - destruct (decide (j = i)) as [->|Hne].
    + rewrite resetLoop_lookup_lt in Hb by lia.
      rewrite list_lookup_insert_eq in Hb by (eapply lookup_lt_Some; eauto).
      now inversion Hb.
    + eapply (IH (S i) j); [lia | exact Hb].
  - apply lookup_ge_None in Hi.
    assert (bs !! j = None) as Hn by (apply lookup_ge_None; lia).
    congruence.
Qed.

(** The collision loop reaches its [break] exactly when one of the slots
    it visits is active and overlaps the plane. *)
Lemma collisionLoop_spec (n : nat) :
  forall (i : nat) (px : F32.float) (bs : list BirdDodger.Bird),
  BirdDodger.collisionLoop n i px bs = true <->
  exists (j : nat) (b : BirdDodger.Bird),
    (i <= j < i + n)%nat /\ bs !! j = Some b
    /\ BirdDodger.active b = true /\ BirdDodger.collides px b = true.
Proof.
  induction n as [|n IH]; intros i px bs; simpl.
  - split; [discriminate | intros (j & b & Hj & _); lia].
  - destruct (bs !! i) as [b0|] eqn:Hi.
    + destruct (BirdDodger.active b0) eqn:Ha; simpl.
      * destruct (BirdDodger.collides px b0) eqn:Hc.
        -- split; [intros _ | reflexivity].
           exists i, b0. repeat split; auto; lia.
        -- rewrite IH. split.
           ++ intros (j & b & Hj & Hb & Hab & Hcb). exists j, b.
              repeat split; auto; lia.
           ++ intros (j & b & Hj & Hb & Hab & Hcb).
              destruct (decide (j = i)) as [->|Hne]; [congruence|].
              exists j, b. repeat split; auto; lia.
      * rewrite IH. split.
        -- intros (j & b & Hj & Hb & Hab & Hcb). exists j, b.
           repeat split; auto; lia.
        -- intros (j & b & Hj & Hb & Hab & Hcb).
           destruct (decide (j = i)) as [->|Hne]; [congruence|].
           exists j, b. repeat split; auto; lia.
    + split; [discriminate|].
      intros (j & b & Hj & Hb & _).
      apply lookup_ge_None in Hi.
      assert (bs !! j = None) as Hn by (apply lookup_ge_None; lia).
      congruence.
Qed.

(** A spawn on a pool without an inactive slot changes nothing. *)
Lemma spawnLoop_full (n : nat) :
  forall (i : nat) (rnd : Z) (bs : list BirdDodger.Bird),
  Forall (fun b => BirdDodger.active b = true) bs ->
  BirdDodger.spawnLoop n i rnd bs = bs.
Proof.
  induction n as [|n IH]; intros i rnd bs Hall; simpl; [reflexivity|].
  destruct (bs !! i) as [b|] eqn:Hi; [|reflexivity].
  rewrite (proj1 (Forall_lookup _ _) Hall i b Hi). simpl. now apply IH.
Qed.

(** A spawn activates the first inactive slot, and only that one. *)
Lemma spawnLoop_first (n : nat) :
  forall (i : nat) (rnd : Z) (bs : list BirdDodger.Bird),
  BirdDodger.spawnLoop n i rnd bs = bs
  \/ exists (j : nat) (b : BirdDodger.Bird),
       (i <= j < i + n)%nat /\ bs !! j = Some b /\ BirdDodger.active b = false
       /\ (forall (k : nat) (c : BirdDodger.Bird),
             (i <= k < j)%nat -> bs !! k = Some c -> BirdDodger.active c = true)
       /\ BirdDodger.spawnLoop n i rnd bs = <[j := BirdDodger.freshBird rnd]> bs.
Proof.
  induction n as [|n IH]; intros i rnd bs; simpl; [now left|].
  destruct (bs !! i) as [b|] eqn:Hi; [|now left].
  destruct (BirdDodger.active b) eqn:Ha; simpl.
  - destruct (IH (S i) rnd bs) as [Heq | (j & c & Hj & Hc & Hac & Hbefore & Heq)];
      [now left|].
    right. exists j, c. repeat split; auto; try lia.
    intros k d Hk Hd. destruct (decide (k = i)) as [->|Hne]; [congruence|].
    apply (Hbefore k d); [lia | exact Hd].
  - right. exists i, b. repeat split; auto; lia.
Qed.

Lemma activeCount_le_length (bs : list BirdDodger.Bird) :
  (BirdDodger.activeCount bs <= length bs)%nat.
Proof. unfold BirdDodger.activeCount. apply length_filter. Qed.

(** ** BirdDodger: what each part of a tick touches *)

Lemma bird_advance_frame (rnd : Z) (s : BirdDodger.State) :
  let m := BirdDodger.advance rnd s in
  BirdDodger.gameOver m = BirdDodger.gameOver s
  /\ BirdDodger.scrollSpeed m = BirdDodger.scrollSpeed s
  /\ BirdDodger.lastDifficultyScore m = BirdDodger.lastDifficultyScore s
  /\ BirdDodger.planeX m = BirdDodger.planeX s
  /\ BirdDodger.rollFilter m = BirdDodger.rollFilter s
  /\ BirdDodger.audio m = BirdDodger.audio s
  /\ length (BirdDodger.birdState m) = length (BirdDodger.birdState s).
Proof.
  unfold BirdDodger.advance, BirdDodger.moveBirds.
  destruct (Z.rem _ _ =? 0);
    match goal with
    | |- context [BirdDodger.moveLoop ?n ?i ?v ?bs ?sc] =>
        pose proof (moveLoop_length n i v bs sc) as Hlen;
        destruct (BirdDodger.moveLoop n i v bs sc) as [bs' sc']
    end;
    cbn -[BirdDodger.spawnLoop] in *; repeat split; try reflexivity.
  - rewrite Hlen. apply spawnLoop_length.
  - exact Hlen.
Qed.

Lemma bird_checkCollisions_frame (s : BirdDodger.State) :
  let c := BirdDodger.checkCollisions s in
  BirdDodger.score c = BirdDodger.score s
  /\ BirdDodger.scrollSpeed c = BirdDodger.scrollSpeed s
  /\ BirdDodger.lastDifficultyScore c = BirdDodger.lastDifficultyScore s
  /\ BirdDodger.birdState c = BirdDodger.birdState s
  /\ BirdDodger.planeX c = BirdDodger.planeX s
  /\ BirdDodger.rollFilter c = BirdDodger.rollFilter s.
Proof.
  unfold BirdDodger.checkCollisions.
  destruct (BirdDodger.gameOver s); [repeat split; reflexivity|].
  destruct (BirdDodger.collisionLoop _ _ _ _); repeat split; reflexivity.
Qed.

Lemma bird_updatePlane_frame (sample : F32.float) (s : BirdDodger.State) :
  let u := BirdDodger.updatePlane sample s in
  BirdDodger.score u = BirdDodger.score s
  /\ BirdDodger.scrollSpeed u = BirdDodger.scrollSpeed s
  /\ BirdDodger.lastDifficultyScore u = BirdDodger.lastDifficultyScore s
  /\ BirdDodger.birdState u = BirdDodger.birdState s
  /\ BirdDodger.gameOver u = BirdDodger.gameOver s
  /\ BirdDodger.audio u = BirdDodger.audio s
  /\ BirdDodger.rollFilter u = fst (EMA.update (BirdDodger.rollFilter s) sample).
Proof. unfold BirdDodger.updatePlane. simpl. repeat split; reflexivity. Qed.

Lemma bird_adjustDifficulty_frame (s : BirdDodger.State) :
  let a := BirdDodger.adjustDifficulty s in
  BirdDodger.score a = BirdDodger.score s
  /\ BirdDodger.birdState a = BirdDodger.birdState s
  /\ BirdDodger.gameOver a = BirdDodger.gameOver s
  /\ BirdDodger.planeX a = BirdDodger.planeX s
  /\ BirdDodger.audio a = BirdDodger.audio s
  /\ BirdDodger.rollFilter a = BirdDodger.rollFilter s.
Proof.
  unfold BirdDodger.adjustDifficulty.
  destruct (_ && _); [destruct (negb _)|]; repeat split; reflexivity.
Qed.

Lemma bird_updateGame_playing (rnd : Z) (sample : F32.float) (s : BirdDodger.State) :
  BirdDodger.gameOver s = false ->
  BirdDodger.updateGame rnd sample s
  = BirdDodger.adjustDifficulty
      (BirdDodger.updatePlane sample
         (BirdDodger.checkCollisions (BirdDodger.advance rnd s))).
Proof. intros H. unfold BirdDodger.updateGame. now rewrite H. Qed.

(** The score of a tick is the score the move and reap pass left. *)
Lemma bird_updateGame_score (rnd : Z) (sample : F32.float) (s : BirdDodger.State) :
  BirdDodger.gameOver s = false ->
  BirdDodger.score (BirdDodger.updateGame rnd sample s)
  = BirdDodger.score (BirdDodger.advance rnd s).
Proof.
  intros H. rewrite (bird_updateGame_playing _ _ _ H).
  destruct (bird_adjustDifficulty_frame
              (BirdDodger.updatePlane sample
                 (BirdDodger.checkCollisions (BirdDodger.advance rnd s)))) as (-> & _).
  destruct (bird_updatePlane_frame sample
              (BirdDodger.checkCollisions (BirdDodger.advance rnd s))) as (-> & _).
  now destruct (bird_checkCollisions_frame (BirdDodger.advance rnd s)) as (-> & _).
Qed.

(** ** The frozen session *)

Lemma pong_tick_frozen (sample : F32.float) (s : Pong.State) :
  Pong.gameOver s = true -> Pong.updateGame sample s = s.
Proof. intros H. unfold Pong.updateGame. now rewrite H. Qed.

Lemma pong_poll_no_restart (cosf sinf : F32.float -> F32.float)
      (ev : option Input.Event) (rnd : Z) (s : Pong.State) :
  Input.isRestart ev && Pong.gameOver s = false ->
  fst (Pong.handleInput cosf sinf ev rnd s) = s.
Proof.
  destruct ev as [[[[] []]|]|]; simpl; try reflexivity.
  destruct (Pong.gameOver s); [discriminate | reflexivity].
Qed.

Lemma bird_tick_frozen (rnd : Z) (sample : F32.float) (s : BirdDodger.State) :
  BirdDodger.gameOver s = true -> BirdDodger.updateGame rnd sample s = s.
Proof. intros H. unfold BirdDodger.updateGame. now rewrite H. Qed.

Lemma bird_poll_no_restart (ev : option Input.Event) (s : BirdDodger.State) :
  Input.isRestart ev && BirdDodger.gameOver s = false ->
  fst (BirdDodger.handleInput ev s) = s.
Proof.
  destruct ev as [[[[] []]|]|]; simpl; try reflexivity.
  destruct (BirdDodger.gameOver s); [discriminate | reflexivity].
Qed.

(** C1.  Once the game is over, any number of ticks, interleaved with any
    input other than the restart press, leaves the whole session state as
    it is: score, ball or birds, velocities, speed, activation flags. *)
Theorem gameover_frozen :
  (forall (cosf sinf : F32.float -> F32.float) (l : list Pong.Step) (s : Pong.State),
      Pong.gameOver s = true ->
      Forall (fun st => Pong.isRestartStep st = false) l ->
      Pong.run cosf sinf l s = s)
  /\ (forall (l : list BirdDodger.Step) (s : BirdDodger.State),
      BirdDodger.gameOver s = true ->
      Forall (fun st => BirdDodger.isRestartStep st = false) l ->
      BirdDodger.run l s = s).
Proof.
  split.
  - intros cosf sinf l s Hover Hl.
    induction Hl as [|st l Hst _ IH]; simpl; [reflexivity|].
    replace (Pong.step cosf sinf st s) with s; [exact IH|].
    destruct st as [sample|ev rnd]; simpl in *.
    + symmetry. now apply pong_tick_frozen.
    + symmetry. apply pong_poll_no_restart. now rewrite Hst.
  - intros l s Hover Hl.
    induction Hl as [|st l Hst _ IH]; simpl; [reflexivity|].
    replace (BirdDodger.step st s) with s; [exact IH|].
    destruct st as [rnd sample|ev]; simpl in *.
    + symmetry. now apply bird_tick_frozen.
    + symmetry. apply bird_poll_no_restart. now rewrite Hst.
Qed.

Lemma gameover_frozen_witness :
  Pong.run Scenario.cos0 Scenario.sin0
           [Pong.Tick (F32.lit 1 10); Pong.Poll Scenario.pressAlt 17;
            Pong.Tick (F32.lit (-1) 10)] Scenario.pongOver
  = Scenario.pongOver
  /\ BirdDodger.run
       [BirdDodger.Tick 60 (F32.lit 1 10); BirdDodger.Poll Scenario.pressAlt;
        BirdDodger.Tick 61 (F32.lit (-1) 10)] Scenario.dodgerOver
     = Scenario.dodgerOver.
Proof.
  split.
  - apply (proj1 gameover_frozen); [reflexivity|].
    repeat constructor.
  - apply (proj2 gameover_frozen); [reflexivity|].
    repeat constructor.
Defined.

(** ** The terminal conditions *)

Lemma pong_miss (sample : F32.float) (s : Pong.State) :
  let b := Pong.ballState (Pong.moveBall s) in
  Pong.gameOver s = false ->
  F32.leb (Pong.x b) (F32.of_int 0) = true ->
  F32.geb (Pong.y b) (Pong.paddleTop s) && F32.leb (Pong.y b) (Pong.paddleBottom s)
  = false ->
  Pong.gameOver (Pong.updateGame sample s) = true
  /\ Pong.score (Pong.updateGame sample s) = Pong.score s.
Proof.
  intros b Hplay Hx Hy.
  rewrite (pong_updateGame_playing _ _ Hplay).
  destruct (pong_updatePaddle_frame sample (Pong.checkCollisions (Pong.moveBall s)))
    as (_ & -> & -> & _).
  set (m := Pong.moveBall s) in *.
  destruct (pong_wallCheck_frame m) as (Wx & Wy & _ & _ & Wsc & _).
  assert (Hx0 : F32.leb (Pong.x (Pong.ballState (Pong.wallCheck m)))
                        (F32.of_int 0) = true)
    by (rewrite Wx; exact Hx).
  assert (Hx4 : F32.leb (Pong.x (Pong.ballState (Pong.wallCheck m)))
                        (F32.of_int Pong.PADDLE_WIDTH) = true)
    by (apply leb_0_leb_4; exact Hx0).
  unfold Pong.checkCollisions.
  rewrite (pong_paddle_excludes_right _ Hx4).
  unfold Pong.paddleCheck. rewrite Hx4, Hx0.
  unfold Pong.paddleBottom in *.
  rewrite (pong_paddleTop_wallCheck m), Wy.
  change (Pong.paddleTop m) with (Pong.paddleTop s).
  fold b. rewrite Hy. simpl. split; [reflexivity | exact Wsc].
Qed.

Lemma bird_collision (rnd : Z) (sample : F32.float) (s : BirdDodger.State) :
  let m := BirdDodger.advance rnd s in
  BirdDodger.wf s ->
  BirdDodger.gameOver s = false ->
  (exists (i : nat) (b : BirdDodger.Bird),
      BirdDodger.birdState m !! i = Some b
      /\ BirdDodger.active b = true
      /\ BirdDodger.collides (BirdDodger.planePixelX m) b = true) ->
  BirdDodger.gameOver (BirdDodger.updateGame rnd sample s) = true
  /\ BirdDodger.score (BirdDodger.updateGame rnd sample s) = BirdDodger.score m
  /\ BirdDodger.score (BirdDodger.checkCollisions m) = BirdDodger.score m.
Proof.
  intros m Hwf Hplay (i & b & Hi & Ha & Hc).
  destruct (bird_advance_frame rnd s) as (Hgo & _ & _ & _ & _ & _ & Hlen).
  fold m in Hgo, Hlen.
  split; [|split].
  - rewrite (bird_updateGame_playing _ _ _ Hplay). fold m.
    destruct (bird_adjustDifficulty_frame
                (BirdDodger.updatePlane sample (BirdDodger.checkCollisions m)))
      as (_ & _ & -> & _).
    destruct (bird_updatePlane_frame sample (BirdDodger.checkCollisions m))
      as (_ & _ & _ & _ & -> & _).
    unfold BirdDodger.checkCollisions. rewrite Hgo, Hplay.
    replace (BirdDodger.collisionLoop _ _ _ _) with true; [reflexivity|].
    symmetry. apply collisionLoop_spec. exists i, b.
    repeat split; auto; try lia.
    apply lookup_lt_Some in Hi. rewrite Hlen, Hwf in Hi. lia.
  - now apply bird_updateGame_score.
  - now destruct (bird_checkCollisions_frame m) as (-> & _).
Qed.

(** C2.  In a running game the terminal condition ends the session on
    the tick it occurs: in [PongGame], the moved ball at [x <= 0] with its
    [y] off the paddle; in [BirdDodger], an active bird that, after the
    move pass, overlaps the plane.  The transition does not touch the
    score: [PongGame] keeps the score of before the tick, [BirdDodger]
    the score the move pass had reached when the collision test ran. *)
Theorem terminal_condition_ends_session :
  (forall (sample : F32.float) (s : Pong.State),
      let b := Pong.ballState (Pong.moveBall s) in
      Pong.gameOver s = false ->
      F32.leb (Pong.x b) (F32.of_int 0) = true ->
      F32.geb (Pong.y b) (Pong.paddleTop s) && F32.leb (Pong.y b) (Pong.paddleBottom s)
      = false ->
      Pong.gameOver (Pong.updateGame sample s) = true
      /\ Pong.score (Pong.updateGame sample s) = Pong.score s)
  /\ (forall (rnd : Z) (sample : F32.float) (s : BirdDodger.State),
      let m := BirdDodger.advance rnd s in
      BirdDodger.wf s ->
      BirdDodger.gameOver s = false ->
      (exists (i : nat) (b : BirdDodger.Bird),
          BirdDodger.birdState m !! i = Some b
          /\ BirdDodger.active b = true
          /\ BirdDodger.collides (BirdDodger.planePixelX m) b = true) ->
      BirdDodger.gameOver (BirdDodger.updateGame rnd sample s) = true
      /\ BirdDodger.score (BirdDodger.updateGame rnd sample s) = BirdDodger.score m
      /\ BirdDodger.score (BirdDodger.checkCollisions m) = BirdDodger.score m).
Proof.
  split.
  - intros sample s. apply pong_miss.
  - intros rnd sample s. apply bird_collision.
Qed.

(** Scenarios B and D of the specification. *)
Lemma terminal_condition_ends_session_witness :
  (Pong.gameOver (Pong.updateGame (F32.of_int 0) Scenario.paddleMiss) = true
   /\ Pong.score (Pong.updateGame (F32.of_int 0) Scenario.paddleMiss) = 7)
  /\ (BirdDodger.gameOver
        (BirdDodger.updateGame 42 (F32.of_int 0) Scenario.dodgerCollide) = true
      /\ BirdDodger.score
           (BirdDodger.updateGame 42 (F32.of_int 0) Scenario.dodgerCollide) = 3).
Proof.
  split.
  - apply (proj1 terminal_condition_ends_session (F32.of_int 0) Scenario.paddleMiss).
    + reflexivity.
    + vm_compute. reflexivity.
    + vm_compute. reflexivity.
  - assert (H := proj2 terminal_condition_ends_session 42 (F32.of_int 0)
                   Scenario.dodgerCollide).
    cbv zeta in H.
    destruct H as (H1 & H2 & _).
    + reflexivity.
    + reflexivity.
    + exists 1%nat, (BirdDodger.mkBird (F32.of_int 60) (F32.of_int 100) true).
      vm_compute. repeat split; reflexivity.
    + split; [exact H1|]. rewrite H2. vm_compute. reflexivity.
Defined.

(** ** The pool *)

Lemma poolStep_length (op : BirdDodger.PoolOp) (bs : list BirdDodger.Bird) :
  length (BirdDodger.poolStep op bs) = length bs.
Proof.
  destruct op as [rnd|speed|]; unfold BirdDodger.poolStep.
  - apply spawnLoop_length.
  - apply moveLoop_length.
  - apply resetLoop_length.
Qed.

Lemma poolRun_length (ops : list BirdDodger.PoolOp) :
  forall bs : list BirdDodger.Bird,
  length (BirdDodger.poolRun ops bs) = length bs.
Proof.
  unfold BirdDodger.poolRun.
  induction ops as [|op ops IH]; intros bs; simpl; [reflexivity|].
  rewrite IH. apply poolStep_length.
Qed.

(** A spawn raises the number of active slots by one at most. *)
Lemma spawnLoop_activeCount (n i : nat) (rnd : Z) (bs : list BirdDodger.Bird) :
  (BirdDodger.activeCount (BirdDodger.spawnLoop n i rnd bs)
   <= S (BirdDodger.activeCount bs))%nat.
Proof.
  destruct (spawnLoop_first n i rnd bs)
    as [-> | (j & b & _ & Hb & Hab & _ & ->)]; [lia|].
  unfold BirdDodger.activeCount.
  rewrite <- (take_drop_middle bs j b Hb) at 2.
  rewrite insert_take_drop by (eapply lookup_lt_Some; eauto).
  rewrite !filter_app, !filter_cons, !length_app.
  destruct (decide (BirdDodger.active (BirdDodger.freshBird rnd) = true));
    destruct (decide (BirdDodger.active b = true)); simpl; lia.
Qed.

(** Five birds on the screen: the spawn is dropped. *)
Example spawn_on_full_pool :
  BirdDodger.poolStep (BirdDodger.Spawn 77) Scenario.fullPool = Scenario.fullPool
  /\ BirdDodger.activeCount Scenario.fullPool = BirdDodger.MAX_BIRDS.
Proof. split; vm_compute; reflexivity. Qed.

(** C8.  Whatever spawns, move-and-reap passes and resets are applied to
    a pool of [MAX_BIRDS] slots, the pool keeps its [MAX_BIRDS] slots and
    at most [MAX_BIRDS] of them are active; a spawn that finds no
    inactive slot returns the pool as it was. *)
Theorem pool_capacity (ops : list BirdDodger.PoolOp) (bs : list BirdDodger.Bird) :
  length bs = BirdDodger.MAX_BIRDS ->
  let bs' := BirdDodger.poolRun ops bs in
  length bs' = BirdDodger.MAX_BIRDS
  /\ (BirdDodger.activeCount bs' <= BirdDodger.MAX_BIRDS)%nat
  /\ (forall rnd : Z,
        Forall (fun b => BirdDodger.active b = true) bs' ->
        BirdDodger.poolStep (BirdDodger.Spawn rnd) bs' = bs').
Proof.
  intros Hlen bs'.
  assert (Hlen' : length bs' = BirdDodger.MAX_BIRDS)
    by (unfold bs'; now rewrite poolRun_length).
  split; [exact Hlen'|]. split.
  - rewrite <- Hlen'. apply activeCount_le_length.
  - intros rnd Hfull. now apply spawnLoop_full.
Qed.

(** Six spawns on the empty pool: the sixth is dropped. *)
Lemma pool_capacity_witness :
  let bs' := BirdDodger.poolRun
               [BirdDodger.Spawn 1; BirdDodger.Spawn 2; BirdDodger.Spawn 3;
                BirdDodger.Spawn 4; BirdDodger.Spawn 5]
               (BirdDodger.birdState BirdDodger.construct) in
  length bs' = 5%nat
  /\ (BirdDodger.activeCount bs' <= 5)%nat
  /\ BirdDodger.poolStep (BirdDodger.Spawn 6) bs' = bs'.
Proof.
  intros bs'.
  destruct (pool_capacity
              [BirdDodger.Spawn 1; BirdDodger.Spawn 2; BirdDodger.Spawn 3;
               BirdDodger.Spawn 4; BirdDodger.Spawn 5]
              (BirdDodger.birdState BirdDodger.construct) eq_refl)
    as (H1 & H2 & H3).
  split; [exact H1|]. split; [exact H2|].
  apply H3. vm_compute. repeat constructor.
Defined.

Lemma moveLoop_birds_indep (n : nat) :
  forall (i : nat) (v : F32.float) (bs : list BirdDodger.Bird) (sc sc' : Z),
  fst (BirdDodger.moveLoop n i v bs sc) = fst (BirdDodger.moveLoop n i v bs sc').
Proof.
  induction n as [|n IH]; intros i v bs sc sc'; simpl; [reflexivity|].
  destruct (bs !! i) as [b|]; [|reflexivity].
  destruct (BirdDodger.active b); [|apply IH].
  destruct (F32.gtb _ _); apply IH.
Qed.

(** The pool operations are the ones of the session. *)
Lemma pool_ops_of_session (rnd : Z) (s : BirdDodger.State) :
  BirdDodger.birdState (BirdDodger.spawnBird rnd s)
  = BirdDodger.poolStep (BirdDodger.Spawn rnd) (BirdDodger.birdState s)
  /\ BirdDodger.birdState (BirdDodger.moveBirds s)
     = BirdDodger.poolStep (BirdDodger.Reap (BirdDodger.scrollSpeed s))
                           (BirdDodger.birdState s)
  /\ BirdDodger.birdState (BirdDodger.restart s)
     = BirdDodger.poolStep BirdDodger.Clear (BirdDodger.birdState s).
Proof.
  split; [reflexivity|]. split; [|reflexivity].
  unfold BirdDodger.moveBirds, BirdDodger.poolStep.
  rewrite (moveLoop_birds_indep _ _ _ _ 0 (BirdDodger.score s)).
  now destruct (BirdDodger.moveLoop _ _ _ _ _).
Qed.

(** The array keeps its slots through a session. *)
Lemma bird_run_wf (l : list BirdDodger.Step) :
  forall s : BirdDodger.State, BirdDodger.wf s -> BirdDodger.wf (BirdDodger.run l s).
Proof.
  induction l as [|st l IH]; intros s Hwf; simpl; [exact Hwf|].
  apply IH. unfold BirdDodger.wf in *.
  destruct st as [rnd sample|ev]; simpl.
  - unfold BirdDodger.updateGame.
    destruct (BirdDodger.gameOver s); [exact Hwf|].
    destruct (bird_adjustDifficulty_frame
                (BirdDodger.updatePlane sample
                   (BirdDodger.checkCollisions (BirdDodger.advance rnd s))))
      as (_ & -> & _).
    destruct (bird_updatePlane_frame sample
                (BirdDodger.checkCollisions (BirdDodger.advance rnd s)))
      as (_ & _ & _ & -> & _).
    destruct (bird_checkCollisions_frame (BirdDodger.advance rnd s))
      as (_ & _ & _ & -> & _).
    destruct (bird_advance_frame rnd s) as (_ & _ & _ & _ & _ & _ & ->).
    exact Hwf.
  - destruct ev as [[[[] []]|]|]; simpl; try exact Hwf.
    destruct (BirdDodger.gameOver s); [|exact Hwf].
    cbn -[BirdDodger.resetLoop]. rewrite resetLoop_length. exact Hwf.
Qed.

(** ** Restart *)

(** Only the restart press, and only in a finished game, changes the
    session. *)
Lemma restart_only_when_over :
  (forall (cosf sinf : F32.float -> F32.float) (ev : option Input.Event) (rnd : Z)
          (s : Pong.State),
      fst (Pong.handleInput cosf sinf ev rnd s) <> s ->
      Input.isRestart ev = true /\ Pong.gameOver s = true)
  /\ (forall (ev : option Input.Event) (s : BirdDodger.State),
      fst (BirdDodger.handleInput ev s) <> s ->
      Input.isRestart ev = true /\ BirdDodger.gameOver s = true).
Proof.
  split.
  - intros cosf sinf ev rnd s Hne.
    destruct (Input.isRestart ev && Pong.gameOver s) eqn:H.
    + now apply andb_prop in H.
    + exfalso. apply Hne. now apply pong_poll_no_restart.
  - intros ev s Hne.
    destruct (Input.isRestart ev && BirdDodger.gameOver s) eqn:H.
    + now apply andb_prop in H.
    + exfalso. apply Hne. now apply bird_poll_no_restart.
Qed.

(** What the restart of [PongGame] sets: the score, the phase, and the
    ball as the constructor's [resetBall] would for the same draw. *)
Lemma pong_restart_effect (cosf sinf : F32.float -> F32.float) (rnd : Z)
      (s : Pong.State) :
  Pong.gameOver s = true ->
  let s' := fst (Pong.handleInput cosf sinf Scenario.pressSelect rnd s) in
  Pong.score s' = 0
  /\ Pong.gameOver s' = false
  /\ Pong.ballState s' = Pong.ballState (Pong.construct cosf sinf rnd)
  /\ Pong.x (Pong.ballState s') = F32.of_int 64
  /\ Pong.y (Pong.ballState s') = F32.of_int 64
  /\ Pong.vx (Pong.ballState s') = F32.mul Pong.BALL_SPEED (cosf (Pong.angle rnd))
  /\ Pong.vy (Pong.ballState s') = F32.mul Pong.BALL_SPEED (sinf (Pong.angle rnd)).
Proof.
  intros Hover. simpl. rewrite Hover. simpl. repeat split; reflexivity.
Qed.

(** What the restart of [BirdDodger] sets: score, speed, frame counter,
    and every slot inactive. *)
Lemma bird_restart_effect (s : BirdDodger.State) :
  BirdDodger.wf s ->
  BirdDodger.gameOver s = true ->
  let s' := fst (BirdDodger.handleInput Scenario.pressSelect s) in
  BirdDodger.score s' = 0
  /\ BirdDodger.lastDifficultyScore s' = 0
  /\ BirdDodger.gameOver s' = false
  /\ BirdDodger.scrollSpeed s' = BirdDodger.INITIAL_SPEED
  /\ BirdDodger.frameCounter s' = 0
  /\ Forall (fun b => BirdDodger.active b = false) (BirdDodger.birdState s').
Proof.
  intros Hwf Hover. simpl. rewrite Hover.
  cbn -[BirdDodger.resetLoop]. repeat split; try reflexivity.
  apply Forall_lookup. intros j b Hb.
  apply (resetLoop_inactive BirdDodger.MAX_BIRDS 0 j (BirdDodger.birdState s) b);
    [|exact Hb].
  apply lookup_lt_Some in Hb. rewrite resetLoop_length in Hb.
  unfold BirdDodger.wf in Hwf. lia.
Qed.

(** The angle handed to the C library depends on the draw through
    [rnd mod 90] only, and for the lower half of the draws it is one and
    the same value, 9370165 * 2^3 = 74961320 radians. *)
Lemma angle_low_draws (rnd : Z) :
  0 <= rnd mod 90 < 45 -> Pong.angle rnd = S754_finite false 9370165 3.
Proof.
  intros H. unfold Pong.angle, Pong.angleDegrees.
  set (k := rnd mod 90) in *. clearbody k.
  assert (Hk : k = 0 \/ k = 1 \/ k = 2 \/ k = 3 \/ k = 4 \/ k = 5 \/ k = 6 \/ k = 7
               \/ k = 8 \/ k = 9 \/ k = 10 \/ k = 11 \/ k = 12 \/ k = 13 \/ k = 14
               \/ k = 15 \/ k = 16 \/ k = 17 \/ k = 18 \/ k = 19 \/ k = 20 \/ k = 21
               \/ k = 22 \/ k = 23 \/ k = 24 \/ k = 25 \/ k = 26 \/ k = 27 \/ k = 28
               \/ k = 29 \/ k = 30 \/ k = 31 \/ k = 32 \/ k = 33 \/ k = 34 \/ k = 35
               \/ k = 36 \/ k = 37 \/ k = 38 \/ k = 39 \/ k = 40 \/ k = 41 \/ k = 42
               \/ k = 43 \/ k = 44) by lia.
  repeat (destruct Hk as [-> | Hk]; [vm_compute; reflexivity|]).
  subst k. vm_compute. reflexivity.
Qed.

(** C3.  The code at the failing input: the restart press in a finished
    game, with the draw [esp_random() = 0].  Score and phase are reset and
    the ball is centred, but the angle is not within -45..45 degrees:
    the unsigned subtraction makes it 4294967251 degrees, which is 211
    modulo 360, and the C library receives 74961320 radians. *)
Theorem restart_angle_out_of_bounds (cosf sinf : F32.float -> F32.float) :
  let s' := fst (Pong.handleInput cosf sinf Scenario.pressSelect 0 Scenario.pongOver) in
  let a := S754_finite false 9370165 3 in
  Pong.score s' = 0
  /\ Pong.gameOver s' = false
  /\ Pong.x (Pong.ballState s') = F32.of_int 64
  /\ Pong.y (Pong.ballState s') = F32.of_int 64
  /\ Pong.vx (Pong.ballState s') = F32.mul Pong.BALL_SPEED (cosf a)
  /\ Pong.vy (Pong.ballState s') = F32.mul Pong.BALL_SPEED (sinf a)
  /\ a = F32.of_int 74961320
  /\ Pong.angleDegrees 0 = 4294967251
  /\ Pong.angleDegrees 0 mod 360 = 211
  /\ ~ (exists d : Z, -45 <= d <= 45 /\ d mod 360 = Pong.angleDegrees 0 mod 360).
Proof.
  cbv zeta.
  destruct (pong_restart_effect cosf sinf 0 Scenario.pongOver eq_refl)
    as (H1 & H2 & _ & H4 & H5 & H6 & H7).
  rewrite (angle_low_draws 0) in H6, H7 by (vm_compute; split; congruence).
  repeat split; try assumption; try (vm_compute; reflexivity).
  replace (Pong.angleDegrees 0 mod 360) with 211 by (vm_compute; reflexivity).
  intros (d & Hd & Hm).
  assert (d = 360 * (d / 360) + d mod 360) by (apply Z.div_mod; lia).
  lia.
Qed.

(** C10.  The actor starts at 0.5, and no input event moves it: the
    restart leaves [paddleY], respectively [planeX], where the finished
    game left it. *)
Theorem restart_keeps_actor_position :
  (forall (cosf sinf : F32.float -> F32.float) (rnd : Z),
      Pong.paddleY (Pong.construct cosf sinf rnd) = F32.lit 1 2)
  /\ (forall (cosf sinf : F32.float -> F32.float) (ev : option Input.Event) (rnd : Z)
             (s : Pong.State),
      Pong.paddleY (fst (Pong.handleInput cosf sinf ev rnd s)) = Pong.paddleY s)
  /\ BirdDodger.planeX BirdDodger.construct = F32.lit 1 2
  /\ (forall (ev : option Input.Event) (s : BirdDodger.State),
      BirdDodger.planeX (fst (BirdDodger.handleInput ev s)) = BirdDodger.planeX s).
Proof.
  repeat split.
  - intros cosf sinf ev rnd s.
    destruct ev as [[[[] []]|]|]; simpl; try reflexivity.
    destruct (Pong.gameOver s); reflexivity.
  - intros ev s.
    destruct ev as [[[[] []]|]|]; simpl; try reflexivity.
    destruct (BirdDodger.gameOver s); reflexivity.
Qed.

(** The restart of a game that ended with the paddle at 0.25 and the
    plane at 0.25: the game runs again, the actor is still at 0.25. *)
Example restart_keeps_actor_position_run :
  let p := fst (Pong.handleInput Scenario.cos0 Scenario.sin0 Scenario.pressSelect 5
                                 Scenario.pongOver) in
  let d := fst (BirdDodger.handleInput Scenario.pressSelect Scenario.dodgerOver) in
  Pong.gameOver p = false /\ Pong.paddleY p = F32.lit 1 4
  /\ BirdDodger.gameOver d = false /\ BirdDodger.planeX d = F32.lit 1 4.
Proof. vm_compute. repeat split; reflexivity. Qed.

(** ** The sensor filter *)

Lemma pong_checkCollisions_filter (s : Pong.State) :
  Pong.pitchFilter (Pong.checkCollisions s) = Pong.pitchFilter s.
Proof.
  unfold Pong.checkCollisions, Pong.rightWallCheck, Pong.paddleCheck, Pong.wallCheck.
  repeat match goal with |- context [if ?c then _ else _] => destruct c; simpl end;
    reflexivity.
Qed.

(** C9, as stated, fails: the restart leaves the filter at the value the
    finished game left (here 1), and the first sample after the restart
    (here 0) goes through the update rule instead of replacing it. *)
Lemma restart_does_not_reset_filter :
  let r := fst (Pong.handleInput Scenario.cos0 Scenario.sin0 Scenario.pressSelect 5
                                 Scenario.pongOver) in
  let t := Pong.updateGame (F32.of_int 0) r in
  Pong.gameOver r = false
  /\ EMA.current (Pong.pitchFilter r) = F32.of_int 1
  /\ EMA.current (Pong.pitchFilter t) <> F32.of_int 0.
Proof. vm_compute. repeat split; try reflexivity. discriminate. Qed.

(** C9, amended.  [onStart] resets the filter to the sample it reads; no
    input event, the restart included, touches the filter; a tick of a
    running game applies the update rule to it, a tick of a finished game
    leaves it; [onStop] leaves it. *)
Theorem filter_assignments :
  (forall (sample : F32.float) (s : Pong.State),
      EMA.current (Pong.pitchFilter (Pong.onStart sample s)) = sample)
  /\ (forall (cosf sinf : F32.float -> F32.float) (ev : option Input.Event) (rnd : Z)
             (s : Pong.State),
      Pong.pitchFilter (fst (Pong.handleInput cosf sinf ev rnd s)) = Pong.pitchFilter s)
  /\ (forall (sample : F32.float) (s : Pong.State),
      Pong.pitchFilter (Pong.updateGame sample s)
      = if Pong.gameOver s then Pong.pitchFilter s
        else fst (EMA.update (Pong.pitchFilter s) sample))
  /\ (forall s : Pong.State, Pong.pitchFilter (Pong.onStop s) = Pong.pitchFilter s)
  /\ (forall (sample : F32.float) (s : BirdDodger.State),
      EMA.current (BirdDodger.rollFilter (BirdDodger.onStart sample s)) = sample)
  /\ (forall (ev : option Input.Event) (s : BirdDodger.State),
      BirdDodger.rollFilter (fst (BirdDodger.handleInput ev s)) = BirdDodger.rollFilter s)
  /\ (forall (rnd : Z) (sample : F32.float) (s : BirdDodger.State),
      BirdDodger.rollFilter (BirdDodger.updateGame rnd sample s)
      = if BirdDodger.gameOver s then BirdDodger.rollFilter s
        else fst (EMA.update (BirdDodger.rollFilter s) sample))
  /\ (forall s : BirdDodger.State,
      BirdDodger.rollFilter (BirdDodger.onStop s) = BirdDodger.rollFilter s).
Proof.
  repeat split.
  - intros cosf sinf ev rnd s.
    destruct ev as [[[[] []]|]|]; simpl; try reflexivity.
    destruct (Pong.gameOver s); reflexivity.
  - intros sample s. unfold Pong.updateGame.
    destruct (Pong.gameOver s); [reflexivity|].
    destruct (pong_updatePaddle_frame sample (Pong.checkCollisions (Pong.moveBall s)))
      as (_ & _ & _ & _ & ->).
    now rewrite pong_checkCollisions_filter.
  - intros ev s.
    destruct ev as [[[[] []]|]|]; simpl; try reflexivity.
    destruct (BirdDodger.gameOver s); reflexivity.
  - intros rnd sample s. unfold BirdDodger.updateGame.
    destruct (BirdDodger.gameOver s); [reflexivity|].
    destruct (bird_adjustDifficulty_frame
                (BirdDodger.updatePlane sample
                   (BirdDodger.checkCollisions (BirdDodger.advance rnd s))))
      as (_ & _ & _ & _ & _ & ->).
    destruct (bird_updatePlane_frame sample
                (BirdDodger.checkCollisions (BirdDodger.advance rnd s)))
      as (_ & _ & _ & _ & _ & _ & ->).
    destruct (bird_checkCollisions_frame (BirdDodger.advance rnd s))
      as (_ & _ & _ & _ & _ & ->).
    now destruct (bird_advance_frame rnd s) as (_ & _ & _ & _ & -> & _).
Qed.

(** ** The difficulty progression *)

(** The levels, by evaluation: each lies between the floor and the
    ceiling, the next one is a level again and is not lower, and below
    the ceiling it is a different value. *)
Lemma speedLevels_facts (v : F32.float) :
  In v BirdDodger.speedLevels ->
  F32.leb BirdDodger.INITIAL_SPEED v = true
  /\ F32.leb v BirdDodger.MAX_SPEED = true
  /\ F32.leb v v = true
  /\ In (BirdDodger.bump v) BirdDodger.speedLevels
  /\ F32.leb v (BirdDodger.bump v) = true
  /\ (F32.ltb v BirdDodger.MAX_SPEED = true -> BirdDodger.bump v <> v).
Proof.
  intros H. vm_compute in H.
  repeat (destruct H as [<- | H];
          [ repeat split;
            try (vm_compute; reflexivity);
            try (vm_compute; repeat (first [left; reflexivity | right]));
            try (intros _; vm_compute; discriminate);
            try (intros Hlt; vm_compute in Hlt; discriminate Hlt)
          | ]).
  contradiction.
Qed.

Lemma adjustDifficulty_cases (s : BirdDodger.State) :
  let a := BirdDodger.adjustDifficulty s in
  (0 < BirdDodger.score s
   /\ Z.rem (BirdDodger.score s) 10 = 0
   /\ F32.ltb (BirdDodger.scrollSpeed s) BirdDodger.MAX_SPEED = true
   /\ BirdDodger.score s <> BirdDodger.lastDifficultyScore s
   /\ BirdDodger.scrollSpeed a = BirdDodger.bump (BirdDodger.scrollSpeed s)
   /\ BirdDodger.lastDifficultyScore a = BirdDodger.score s)
  \/ (~ (0 < BirdDodger.score s
         /\ Z.rem (BirdDodger.score s) 10 = 0
         /\ F32.ltb (BirdDodger.scrollSpeed s) BirdDodger.MAX_SPEED = true
         /\ BirdDodger.score s <> BirdDodger.lastDifficultyScore s)
      /\ BirdDodger.scrollSpeed a = BirdDodger.scrollSpeed s
      /\ BirdDodger.lastDifficultyScore a = BirdDodger.lastDifficultyScore s).
Proof.
  unfold BirdDodger.adjustDifficulty.
  destruct (Z.ltb_spec 0 (BirdDodger.score s)) as [Hpos|Hpos]; simpl.
  2: { right. repeat split; try reflexivity. intros (H & _). lia. }
  destruct (Z.eqb_spec (Z.rem (BirdDodger.score s) 10) 0) as [Hrem|Hrem]; simpl.
  2: { right. repeat split; try reflexivity. intros (_ & H & _). lia. }
  destruct (F32.ltb (BirdDodger.scrollSpeed s) BirdDodger.MAX_SPEED) eqn:Hlt; simpl.
  2: { right. repeat split; try reflexivity. intros (_ & _ & H & _). discriminate. }
  destruct (Z.eqb_spec (BirdDodger.score s) (BirdDodger.lastDifficultyScore s))
    as [Heq|Hne]; simpl.
  - right. repeat split; try reflexivity. intros (_ & _ & _ & H). lia.
  - left. repeat split; auto.
Qed.

(** The move and reap pass raises the score by the number of birds that
    left the screen, at most one per slot visited. *)
Lemma moveLoop_score (n : nat) :
  forall (i : nat) (v : F32.float) (bs : list BirdDodger.Bird) (sc : Z),
  Int.INT_MIN <= sc -> sc + Z.of_nat n <= Int.INT_MAX ->
  sc <= snd (BirdDodger.moveLoop n i v bs sc) <= sc + Z.of_nat n.
Proof.
  induction n as [|n IH]; intros i v bs sc Hlo Hhi; simpl BirdDodger.moveLoop.
  - simpl. lia.
  - destruct (bs !! i) as [b|]; [|simpl; lia].
    destruct (BirdDodger.active b).
    + destruct (F32.gtb _ _).
      * rewrite wrap32_id by lia.
        specialize (IH (S i) v (<[i:=BirdDodger.mkBird (BirdDodger.x b)
                                      (F32.add (BirdDodger.y b) v) false]> bs)
                       (sc + 1)).
        lia.
      * specialize (IH (S i) v (<[i:=BirdDodger.mkBird (BirdDodger.x b)
                                      (F32.add (BirdDodger.y b) v) true]> bs) sc).
        lia.
    + specialize (IH (S i) v bs sc). lia.
Qed.

Lemma bird_advance_score (rnd : Z) (s : BirdDodger.State) :
  Int.INT_MIN <= BirdDodger.score s ->
  BirdDodger.score s <= Int.INT_MAX - Z.of_nat BirdDodger.MAX_BIRDS ->
  BirdDodger.score s <= BirdDodger.score (BirdDodger.advance rnd s)
  <= BirdDodger.score s + Z.of_nat BirdDodger.MAX_BIRDS.
Proof.
  intros Hlo Hhi. unfold BirdDodger.advance, BirdDodger.moveBirds.
  destruct (Z.rem _ _ =? 0);
    match goal with
    | |- context [BirdDodger.moveLoop ?n ?i ?v ?bs ?sc] =>
        pose proof (moveLoop_score n i v bs sc) as Hb;
        destruct (BirdDodger.moveLoop n i v bs sc) as [bs' sc']
    end;
    cbn -[BirdDodger.spawnLoop Z.of_nat] in *; lia.
Qed.

(** The state handed to the difficulty step of a tick. *)
Lemma bird_before_adjust (rnd : Z) (sample : F32.float) (s : BirdDodger.State) :
  let a := BirdDodger.updatePlane sample
             (BirdDodger.checkCollisions (BirdDodger.advance rnd s)) in
  BirdDodger.score a = BirdDodger.score (BirdDodger.advance rnd s)
  /\ BirdDodger.scrollSpeed a = BirdDodger.scrollSpeed s
  /\ BirdDodger.lastDifficultyScore a = BirdDodger.lastDifficultyScore s.
Proof.
  cbv zeta.
  destruct (bird_updatePlane_frame sample
              (BirdDodger.checkCollisions (BirdDodger.advance rnd s)))
    as (-> & -> & -> & _).
  destruct (bird_checkCollisions_frame (BirdDodger.advance rnd s))
    as (-> & -> & -> & _).
  destruct (bird_advance_frame rnd s) as (_ & -> & -> & _).
  repeat split; reflexivity.
Qed.

Lemma sessionInv_construct : BirdDodger.sessionInv BirdDodger.construct.
Proof.
  split; [vm_compute; left; reflexivity|].
  split; [simpl; lia|].
  intros H. simpl in H. lia.
Qed.

Lemma sessionInv_poll (ev : option Input.Event) (s : BirdDodger.State) :
  BirdDodger.sessionInv s -> BirdDodger.sessionInv (fst (BirdDodger.handleInput ev s)).
Proof.
  intros Hinv.
  destruct ev as [[[[] []]|]|]; simpl; try exact Hinv.
  destruct (BirdDodger.gameOver s); [|exact Hinv].
  split; [vm_compute; left; reflexivity|].
  split; [simpl; lia|].
  intros H. simpl in H. lia.
Qed.






(** * Further properties of the screens *)

(** ** Comparisons *)

Lemma finite_leb_antisym (m1 m2 : positive) (e1 e2 : Z) :
  F32.ltb (S754_finite false m1 e1) (S754_finite false m2 e2) = false ->
  F32.leb (S754_finite false m2 e2) (S754_finite false m1 e1) = true.
Proof.
  unfold F32.ltb, F32.leb, SFltb, SFleb. cbn [SFcompare].
  change (Pos.compare_cont Eq m1 m2) with (Pos.compare m1 m2).
  change (Pos.compare_cont Eq m2 m1) with (Pos.compare m2 m1).
  rewrite (Z.compare_antisym e1 e2), (Pos.compare_antisym m1 m2).
  destruct (e1 ?= e2); simpl; try congruence.
  destruct (m1 ?= m2)%positive; simpl; congruence.
Qed.

(** [std::clamp(v, 0, 1)] is within [0,1], unless [v] is a NaN, which it
    returns. *)
Lemma clamp_unit (v : F32.float) :
  let c := F32.clamp v (F32.of_int 0) (F32.of_int 1) in
  (F32.leb (F32.of_int 0) c = true /\ F32.leb c (F32.of_int 1) = true)
  \/ (v = S754_nan /\ c = S754_nan).
Proof.
  unfold F32.clamp.
  destruct (F32.ltb v (F32.of_int 0)) eqn:H0;
    [left; split; vm_compute; reflexivity|].
  destruct (F32.ltb (F32.of_int 1) v) eqn:H1;
    [left; split; vm_compute; reflexivity|].
  destruct v as [sg|sg| |sg m e].
  - left. split; destruct sg; vm_compute; reflexivity.
  - destruct sg; [vm_compute in H0 | vm_compute in H1]; discriminate.
  - right. split; reflexivity.
  - destruct sg; [vm_compute in H0; discriminate|].
    left. split; [vm_compute; reflexivity|].
    revert H1.
    replace (F32.of_int 1) with (S754_finite false 8388608 (-23))
      by (vm_compute; reflexivity).
    apply finite_leb_antisym.
Qed.

Lemma geb_false_gtb_false (a b : F32.float) :
  F32.geb a b = false -> F32.gtb a b = false.
Proof. unfold F32.geb, F32.gtb. destruct (SFcompare a b) as [[]|]; congruence. Qed.

Lemma abs_neg (v : F32.float) : SFabs (F32.neg v) = SFabs v.
Proof. destruct v; reflexivity. Qed.

(** ** PongGame: the outcome of a tick *)

Lemma pong_paddleCheck_outcome (s : Pong.State) :
  let b := Pong.ballState s in
  let onPaddle :=
    F32.geb (Pong.y b) (Pong.paddleTop s) && F32.leb (Pong.y b) (Pong.paddleBottom s) in
  Pong.score (Pong.paddleCheck s)
  = (if F32.leb (Pong.x b) (F32.of_int Pong.PADDLE_WIDTH) && onPaddle
     then Int.wrap32 (Pong.score s + 1) else Pong.score s)
  /\ Pong.gameOver (Pong.paddleCheck s)
     = Pong.gameOver s || (F32.leb (Pong.x b) (F32.of_int 0) && negb onPaddle).
Proof.
  cbv zeta. unfold Pong.paddleCheck.
  destruct (F32.leb (Pong.x (Pong.ballState s)) (F32.of_int Pong.PADDLE_WIDTH)) eqn:H4.
  - destruct (_ && _); simpl.
    + split; [reflexivity|]. now rewrite andb_false_r, orb_false_r.
    + destruct (F32.leb _ (F32.of_int 0)); simpl.
      * split; [reflexivity|]. now rewrite orb_true_r.
      * split; [reflexivity|]. now rewrite orb_false_r.
  - simpl.
    destruct (F32.leb (Pong.x (Pong.ballState s)) (F32.of_int 0)) eqn:H0.
    + apply leb_0_leb_4 in H0. unfold Pong.PADDLE_WIDTH in H4. congruence.
    + split; [reflexivity|]. now rewrite orb_false_r.
Qed.

Lemma pong_rightWallCheck_frame (s : Pong.State) :
  Pong.score (Pong.rightWallCheck s) = Pong.score s
  /\ Pong.gameOver (Pong.rightWallCheck s) = Pong.gameOver s
  /\ F32.gtb (Pong.x (Pong.ballState (Pong.rightWallCheck s)))
             (F32.of_int (Pong.SCREEN_WIDTH - Pong.BALL_SIZE)) = false
  /\ SFabs (Pong.vx (Pong.ballState (Pong.rightWallCheck s)))
     = SFabs (Pong.vx (Pong.ballState s)).
Proof.
  unfold Pong.rightWallCheck.
  destruct (F32.geb _ _) eqn:H; simpl.
  - split; [reflexivity|]. split; [reflexivity|].
    split; [vm_compute; reflexivity | apply abs_neg].
  - split; [reflexivity|]. split; [reflexivity|].
    split; [now apply geb_false_gtb_false | reflexivity].
Qed.

(** X1.  What a tick of a running game does to score and phase, read off
    the moved ball: the score is incremented exactly when the ball is at
    [x <= PADDLE_WIDTH] within the paddle; the game is over after the
    tick exactly when the ball is at [x <= 0] off the paddle.  No other
    position ends the game or scores. *)
Theorem pong_tick_outcome (sample : F32.float) (s : Pong.State) :
  let b := Pong.ballState (Pong.moveBall s) in
  let onPaddle :=
    F32.geb (Pong.y b) (Pong.paddleTop s) && F32.leb (Pong.y b) (Pong.paddleBottom s) in
  Pong.gameOver s = false ->
  Pong.score (Pong.updateGame sample s)
  = (if F32.leb (Pong.x b) (F32.of_int Pong.PADDLE_WIDTH) && onPaddle
     then Int.wrap32 (Pong.score s + 1) else Pong.score s)
  /\ Pong.gameOver (Pong.updateGame sample s)
     = F32.leb (Pong.x b) (F32.of_int 0) && negb onPaddle.
Proof.
  intros b onPaddle Hplay.
  rewrite (pong_updateGame_playing _ _ Hplay).
  destruct (pong_updatePaddle_frame sample (Pong.checkCollisions (Pong.moveBall s)))
    as (_ & -> & -> & _).
  unfold Pong.checkCollisions.
  destruct (pong_rightWallCheck_frame (Pong.paddleCheck (Pong.wallCheck (Pong.moveBall s))))
    as (-> & -> & _).
  destruct (pong_paddleCheck_outcome (Pong.wallCheck (Pong.moveBall s))) as (-> & ->).
  destruct (pong_wallCheck_frame (Pong.moveBall s)) as (-> & -> & _ & _ & -> & -> & _).
  unfold Pong.paddleBottom. rewrite (pong_paddleTop_wallCheck (Pong.moveBall s)).
  change (Pong.paddleTop (Pong.moveBall s)) with (Pong.paddleTop s).
  change (Pong.score (Pong.moveBall s)) with (Pong.score s).
  change (Pong.gameOver (Pong.moveBall s)) with (Pong.gameOver s).
  rewrite Hplay. split; reflexivity.
Qed.

(** A ball in the open field: no point, no end. *)
Lemma pong_tick_outcome_witness :
  Pong.score (Pong.updateGame (F32.of_int 0) Scenario.topWall) = 0
  /\ Pong.gameOver (Pong.updateGame (F32.of_int 0) Scenario.topWall) = false.
Proof.
  exact (pong_tick_outcome (F32.of_int 0) Scenario.topWall eq_refl).
Defined.

(** X2.  A tick of a running game never leaves the ball to the right of
    the right wall: [x > SCREEN_WIDTH - BALL_SIZE] is false after it. *)
Theorem pong_right_wall_holds (sample : F32.float) (s : Pong.State) :
  Pong.gameOver s = false ->
  F32.gtb (Pong.x (Pong.ballState (Pong.updateGame sample s)))
          (F32.of_int (Pong.SCREEN_WIDTH - Pong.BALL_SIZE)) = false.
Proof.
  intros Hplay. rewrite (pong_updateGame_playing _ _ Hplay).
  destruct (pong_updatePaddle_frame sample (Pong.checkCollisions (Pong.moveBall s)))
    as (-> & _).
  unfold Pong.checkCollisions.
  now destruct (pong_rightWallCheck_frame
                  (Pong.paddleCheck (Pong.wallCheck (Pong.moveBall s))))
    as (_ & _ & -> & _).
Qed.

Lemma pong_right_wall_holds_witness :
  F32.gtb (Pong.x (Pong.ballState (Pong.updateGame (F32.of_int 0) Scenario.corner)))
          (F32.of_int 124) = false.
Proof. exact (pong_right_wall_holds (F32.of_int 0) Scenario.corner eq_refl). Defined.

Lemma pong_tick_abs_vx (sample : F32.float) (s : Pong.State) :
  SFabs (Pong.vx (Pong.ballState (Pong.updateGame sample s)))
  = SFabs (Pong.vx (Pong.ballState s)).
Proof.
  unfold Pong.updateGame. destruct (Pong.gameOver s); [reflexivity|].
  destruct (pong_updatePaddle_frame sample (Pong.checkCollisions (Pong.moveBall s)))
    as (-> & _).
  unfold Pong.checkCollisions.
  destruct (pong_rightWallCheck_frame
              (Pong.paddleCheck (Pong.wallCheck (Pong.moveBall s))))
    as (_ & _ & _ & ->).
  transitivity (SFabs (Pong.vx (Pong.ballState (Pong.wallCheck (Pong.moveBall s))))).
  - unfold Pong.paddleCheck.
    repeat match goal with |- context [if ?c then _ else _] => destruct c end;
      simpl; try reflexivity. apply abs_neg.
  - now destruct (pong_wallCheck_frame (Pong.moveBall s)) as (_ & _ & -> & _).
Qed.

(** X3.  Between two restarts the ball keeps its horizontal speed: walls
    and paddle change the sign of [vx], nothing changes its magnitude. *)
Theorem pong_horizontal_speed_constant (cosf sinf : F32.float -> F32.float)
        (l : list Pong.Step) (s : Pong.State) :
  Forall (fun st => Pong.isRestartStep st = false) l ->
  SFabs (Pong.vx (Pong.ballState (Pong.run cosf sinf l s)))
  = SFabs (Pong.vx (Pong.ballState s)).
Proof.
  intros Hl. revert s.
  induction Hl as [|st l Hst _ IH]; intros s; simpl; [reflexivity|].
  rewrite IH. destruct st as [sample|ev rnd]; simpl in *.
  - apply pong_tick_abs_vx.
  - rewrite pong_poll_no_restart; [reflexivity | now rewrite Hst].
Qed.

Lemma pong_horizontal_speed_constant_witness :
  SFabs (Pong.vx (Pong.ballState
                    (Pong.run Scenario.cos0 Scenario.sin0
                              [Pong.Tick (F32.of_int 0); Pong.Poll Scenario.pressAlt 3;
                               Pong.Tick (F32.lit 1 10)] Scenario.corner)))
  = F32.lit 3 2.
Proof.
  apply (pong_horizontal_speed_constant Scenario.cos0 Scenario.sin0
           [Pong.Tick (F32.of_int 0); Pong.Poll Scenario.pressAlt 3;
            Pong.Tick (F32.lit 1 10)] Scenario.corner).
  repeat constructor.
Defined.

(** X4.  After a tick of a running game the actor's position is within
    [0,1]; the one exception is a NaN, which [std::clamp] hands
    through. *)
Theorem actor_position_clamped :
  (forall (sample : F32.float) (s : Pong.State),
      Pong.gameOver s = false ->
      let p := Pong.paddleY (Pong.updateGame sample s) in
      (F32.leb (F32.of_int 0) p = true /\ F32.leb p (F32.of_int 1) = true)
      \/ p = S754_nan)
  /\ (forall (rnd : Z) (sample : F32.float) (s : BirdDodger.State),
      BirdDodger.gameOver s = false ->
      let p := BirdDodger.planeX (BirdDodger.updateGame rnd sample s) in
      (F32.leb (F32.of_int 0) p = true /\ F32.leb p (F32.of_int 1) = true)
      \/ p = S754_nan).
Proof.
  split.
  - intros sample s Hplay. cbv zeta.
    rewrite (pong_updateGame_playing _ _ Hplay).
    unfold Pong.updatePaddle. cbn [EMA.update Pong.paddleY Pong.set_paddleY].
    match goal with |- context [F32.clamp ?v (F32.of_int 0) (F32.of_int 1)] =>
      destruct (clamp_unit v) as [H | (_ & H)] end; [left; exact H | right; exact H].
  - intros rnd sample s Hplay. cbv zeta.
    rewrite (bird_updateGame_playing _ _ _ Hplay).
    destruct (bird_adjustDifficulty_frame
                (BirdDodger.updatePlane sample
                   (BirdDodger.checkCollisions (BirdDodger.advance rnd s))))
      as (_ & _ & _ & -> & _).
    unfold BirdDodger.updatePlane.
    cbn [EMA.update BirdDodger.planeX BirdDodger.set_planeX].
    match goal with |- context [F32.clamp ?v (F32.of_int 0) (F32.of_int 1)] =>
      destruct (clamp_unit v) as [H | (_ & H)] end; [left; exact H | right; exact H].
Qed.

Lemma actor_position_clamped_witness :
  (let p := Pong.paddleY (Pong.updateGame (F32.of_int 5) Scenario.paddleHit) in
   (F32.leb (F32.of_int 0) p = true /\ F32.leb p (F32.of_int 1) = true)
   \/ p = S754_nan)
  /\ (let p := BirdDodger.planeX
                 (BirdDodger.updateGame 0 (F32.of_int (-5)) Scenario.dodgerReap) in
      (F32.leb (F32.of_int 0) p = true /\ F32.leb p (F32.of_int 1) = true)
      \/ p = S754_nan).
Proof.
  split.
  - exact (proj1 actor_position_clamped (F32.of_int 5) Scenario.paddleHit eq_refl).
  - exact (proj2 actor_position_clamped 0 (F32.of_int (-5)) Scenario.dodgerReap eq_refl).
Defined.

(** ** BirdDodger: the move and reap pass, slot by slot *)

Lemma moveLoop_lookup (n : nat) :
  forall (i j : nat) (v : F32.float) (bs : list BirdDodger.Bird) (sc : Z),
  fst (BirdDodger.moveLoop n i v bs sc) !! j
  = if decide (i <= j < i + n)%nat then Slot.moved v <$> bs !! j else bs !! j.
Proof.
  induction n as [|n IH]; intros i j v bs sc; simpl.
  - case_decide; [lia | reflexivity].
  - destruct (bs !! i) as [b|] eqn:Hi.
    + assert (Hlt : (i < length bs)%nat) by (eapply lookup_lt_Some; eauto).
      destruct (BirdDodger.active b) eqn:Ha.
      * destruct (F32.gtb _ _) eqn:Hg; rewrite IH;
          (destruct (decide (j = i)) as [->|Hne];
           [ rewrite list_lookup_insert_eq by exact Hlt;
             repeat case_decide; try lia;
             rewrite Hi; simpl; unfold Slot.moved; now rewrite Ha, Hg
           | rewrite list_lookup_insert_ne by lia;
             repeat case_decide; try lia; reflexivity ]).
      * rewrite IH. destruct (decide (j = i)) as [->|Hne].
        -- repeat case_decide; try lia.
           rewrite Hi; simpl; unfold Slot.moved; now rewrite Ha.
        -- repeat case_decide; try lia; reflexivity.
    + simpl. case_decide; [|reflexivity].
      apply lookup_ge_None in Hi.
      assert (bs !! j = None) as -> by (apply lookup_ge_None; lia).
      reflexivity.
Qed.

Lemma moveLoop_map (v : F32.float) (bs : list BirdDodger.Bird) (sc : Z) :
  length bs = BirdDodger.MAX_BIRDS ->
  fst (BirdDodger.moveLoop BirdDodger.MAX_BIRDS 0 v bs sc) = Slot.moved v <$> bs.
Proof.
  intros Hlen. apply list_eq. intros j.
  rewrite moveLoop_lookup, list_lookup_fmap.
  case_decide; [reflexivity|].
  assert (bs !! j = None) as -> by (apply lookup_ge_None; lia).
  reflexivity.
Qed.

(** The points of the pass: one per bird that leaves the screen. *)
Lemma moveLoop_points (n : nat) :
  forall (i : nat) (v : F32.float) (bs : list BirdDodger.Bird) (sc : Z),
  Int.INT_MIN <= sc -> sc + Z.of_nat n <= Int.INT_MAX ->
  snd (BirdDodger.moveLoop n i v bs sc)
  = sc + Z.of_nat (length (filter (fun b => Slot.leavesScreen v b = true)
                                  (take n (drop i bs)))).
Proof.
  induction n as [|n IH]; intros i v bs sc Hlo Hhi; simpl BirdDodger.moveLoop.
  - simpl. lia.
  - destruct (bs !! i) as [b|] eqn:Hi.
    + rewrite (drop_S _ _ _ Hi). cbn [take]. rewrite filter_cons.
      destruct (BirdDodger.active b) eqn:Ha.
      * destruct (F32.gtb _ _) eqn:Hg.
        -- rewrite wrap32_id by lia. rewrite IH by lia.
           rewrite drop_insert_lt by lia.
           rewrite decide_True
             by (unfold Slot.leavesScreen; now rewrite Ha, Hg).
           simpl length. lia.
        -- rewrite IH by lia. rewrite drop_insert_lt by lia.
           rewrite decide_False
             by (unfold Slot.leavesScreen; rewrite Ha, Hg; discriminate).
           reflexivity.
      * rewrite IH by lia.
        rewrite decide_False
          by (unfold Slot.leavesScreen; rewrite Ha; discriminate).
        reflexivity.
    + apply lookup_ge_None in Hi. rewrite drop_ge by lia.
      simpl. lia.
Qed.

Lemma moved_activeCount (v : F32.float) (bs : list BirdDodger.Bird) :
  (BirdDodger.activeCount (Slot.moved v <$> bs)
   + length (filter (fun b => Slot.leavesScreen v b = true) bs))%nat
  = BirdDodger.activeCount bs.
Proof.
  unfold BirdDodger.activeCount.
  induction bs as [|b bs IH]; [reflexivity|].
  rewrite fmap_cons, !filter_cons.
  assert (Hcases :
            (BirdDodger.active b = true /\ Slot.leavesScreen v b = true
             /\ BirdDodger.active (Slot.moved v b) = false)
            \/ (BirdDodger.active b = true /\ Slot.leavesScreen v b = false
                /\ BirdDodger.active (Slot.moved v b) = true)
            \/ (BirdDodger.active b = false /\ Slot.leavesScreen v b = false
                /\ BirdDodger.active (Slot.moved v b) = false)).
  { unfold Slot.leavesScreen, Slot.moved.
    destruct (BirdDodger.active b) eqn:Ha; [|right; right; now rewrite Ha].
    destruct (F32.gtb _ _); [left | right; left]; repeat split; reflexivity. }
  destruct Hcases as [(H1 & H2 & H3) | [(H1 & H2 & H3) | (H1 & H2 & H3)]].
  - rewrite (decide_False (P := BirdDodger.active (Slot.moved v b) = true))
      by (rewrite H3; discriminate).
    rewrite (decide_True (P := Slot.leavesScreen v b = true)) by exact H2.
    rewrite (decide_True (P := BirdDodger.active b = true)) by exact H1.
    simpl length. lia.
  - rewrite (decide_True (P := BirdDodger.active (Slot.moved v b) = true))
      by exact H3.
    rewrite (decide_False (P := Slot.leavesScreen v b = true))
      by (rewrite H2; discriminate).
    rewrite (decide_True (P := BirdDodger.active b = true)) by exact H1.
    simpl length. lia.
  - rewrite (decide_False (P := BirdDodger.active (Slot.moved v b) = true))
      by (rewrite H3; discriminate).
    rewrite (decide_False (P := Slot.leavesScreen v b = true))
      by (rewrite H2; discriminate).
    rewrite (decide_False (P := BirdDodger.active b = true))
      by (rewrite H1; discriminate).
    exact IH.
Qed.

(** X5.  The move and reap pass treats every slot on its own: an inactive
    slot is left as it is, an active bird is moved down by the speed and
    deactivated if that takes it beyond [SCREEN_HEIGHT].  The score grows
    by the number of birds deactivated, and no slot is activated. *)
Theorem move_pass_slotwise (s : BirdDodger.State) :
  BirdDodger.wf s ->
  Int.INT_MIN <= BirdDodger.score s <= Int.INT_MAX - Z.of_nat BirdDodger.MAX_BIRDS ->
  let s' := BirdDodger.moveBirds s in
  BirdDodger.birdState s'
  = Slot.moved (BirdDodger.scrollSpeed s) <$> BirdDodger.birdState s
  /\ BirdDodger.score s'
     = BirdDodger.score s
       + Z.of_nat (length (filter (fun b => Slot.leavesScreen
                                               (BirdDodger.scrollSpeed s) b = true)
                                  (BirdDodger.birdState s)))
  /\ BirdDodger.score s' - BirdDodger.score s
     = Z.of_nat (BirdDodger.activeCount (BirdDodger.birdState s))
       - Z.of_nat (BirdDodger.activeCount (BirdDodger.birdState s')).
Proof.
  intros Hwf Hsc. unfold BirdDodger.wf in Hwf. cbv zeta.
  unfold BirdDodger.moveBirds.
  pose proof (moveLoop_map (BirdDodger.scrollSpeed s) (BirdDodger.birdState s)
                           (BirdDodger.score s) Hwf) as Hmap.
  pose proof (moveLoop_points BirdDodger.MAX_BIRDS 0 (BirdDodger.scrollSpeed s)
                              (BirdDodger.birdState s) (BirdDodger.score s)) as Hpts.
  rewrite drop_0, take_ge in Hpts by lia.
  destruct (BirdDodger.moveLoop _ _ _ _ _) as [bs' sc'].
  cbn [fst snd] in Hmap, Hpts.
  cbn [BirdDodger.birdState BirdDodger.score BirdDodger.set_score BirdDodger.set_birds].
  rewrite Hpts by lia. rewrite Hmap.
  split; [reflexivity|]. split; [reflexivity|].
  pose proof (moved_activeCount (BirdDodger.scrollSpeed s) (BirdDodger.birdState s)).
  lia.
Qed.

(** The tenth bird leaves: one point, one bird less. *)
Lemma move_pass_slotwise_witness :
  BirdDodger.score (BirdDodger.moveBirds Scenario.dodgerReap) = 10
  /\ BirdDodger.activeCount (BirdDodger.birdState (BirdDodger.moveBirds Scenario.dodgerReap))
     = 1%nat.
Proof.
  assert (Hwf : BirdDodger.wf Scenario.dodgerReap) by reflexivity.
  assert (Hsc : Int.INT_MIN <= BirdDodger.score Scenario.dodgerReap
                <= Int.INT_MAX - Z.of_nat BirdDodger.MAX_BIRDS)
    by (split; vm_compute; discriminate).
  destruct (move_pass_slotwise Scenario.dodgerReap Hwf Hsc) as (H1 & H2 & H3).
  split.
  - rewrite H2. vm_compute. reflexivity.
  - rewrite H1. vm_compute. reflexivity.
Defined.

(** The birds a tick hands to the collision test: the pool, after the
    spawn if the frame calls for one, moved slot by slot. *)
Lemma bird_advance_birds (rnd : Z) (s : BirdDodger.State) :
  BirdDodger.wf s ->
  BirdDodger.birdState (BirdDodger.advance rnd s)
  = Slot.moved (BirdDodger.scrollSpeed s)
    <$> (if Z.rem (Int.wrap32 (BirdDodger.frameCounter s + 1))
                  BirdDodger.SPAWN_INTERVAL =? 0
         then BirdDodger.spawnLoop BirdDodger.MAX_BIRDS 0 rnd (BirdDodger.birdState s)
         else BirdDodger.birdState s).
Proof.
  intros Hwf. unfold BirdDodger.wf in Hwf.
  unfold BirdDodger.advance, BirdDodger.moveBirds.
  cbn [BirdDodger.frameCounter BirdDodger.set_frameCounter].
  destruct (Z.rem _ _ =? 0);
    match goal with
    | |- context [BirdDodger.moveLoop ?n ?i ?v ?bs ?sc] =>
        pose proof (moveLoop_map v bs sc) as Hmap;
        destruct (BirdDodger.moveLoop n i v bs sc) as [bs' sc']
    end;
    cbn -[BirdDodger.spawnLoop] in *; apply Hmap.
  - now rewrite spawnLoop_length.
  - exact Hwf.
Qed.

(** X6.  When a tick of a running game ends, no active bird is beyond the
    bottom of the screen: for every active slot [y > SCREEN_HEIGHT] is
    false. *)
Theorem no_active_bird_off_screen (rnd : Z) (sample : F32.float)
        (s : BirdDodger.State) :
  BirdDodger.wf s ->
  BirdDodger.gameOver s = false ->
  Forall (fun b => BirdDodger.active b = true ->
                   F32.gtb (BirdDodger.y b) (F32.of_int BirdDodger.SCREEN_HEIGHT)
                   = false)
         (BirdDodger.birdState (BirdDodger.updateGame rnd sample s)).
Proof.
  intros Hwf Hplay. rewrite (bird_updateGame_playing _ _ _ Hplay).
  destruct (bird_adjustDifficulty_frame
              (BirdDodger.updatePlane sample
                 (BirdDodger.checkCollisions (BirdDodger.advance rnd s))))
    as (_ & -> & _).
  destruct (bird_updatePlane_frame sample
              (BirdDodger.checkCollisions (BirdDodger.advance rnd s)))
    as (_ & _ & _ & -> & _).
  destruct (bird_checkCollisions_frame (BirdDodger.advance rnd s))
    as (_ & _ & _ & -> & _).
  rewrite (bird_advance_birds _ _ Hwf).
  apply Forall_fmap, Forall_forall. intros b _. simpl.
  unfold Slot.moved. destruct (BirdDodger.active b) eqn:Ha.
  - cbn [BirdDodger.active BirdDodger.y]. intros H.
    now apply negb_true_iff in H.
  - congruence.
Qed.

Lemma no_active_bird_off_screen_witness :
  Forall (fun b => BirdDodger.active b = true ->
                   F32.gtb (BirdDodger.y b) (F32.of_int BirdDodger.SCREEN_HEIGHT)
                   = false)
         (BirdDodger.birdState
            (BirdDodger.updateGame 0 (F32.of_int 0) Scenario.dodgerReap)).
Proof.
  apply (no_active_bird_off_screen 0 (F32.of_int 0) Scenario.dodgerReap);
    reflexivity.
Defined.

(** ** BirdDodger: the spawn *)

(** The bird a spawn puts on the screen is wholly within its width. *)
Lemma freshBird_on_screen (rnd : Z) :
  let b := BirdDodger.freshBird rnd in
  BirdDodger.active b = true
  /\ BirdDodger.y b = F32.of_int (- BirdDodger.BIRD_SIZE)
  /\ F32.leb (F32.of_int 0) (BirdDodger.x b) = true
  /\ F32.leb (F32.add (BirdDodger.x b) (F32.of_int BirdDodger.BIRD_SIZE))
             (F32.of_int BirdDodger.SCREEN_WIDTH) = true.
Proof.
  cbv zeta. unfold BirdDodger.freshBird.
  cbn [BirdDodger.active BirdDodger.y BirdDodger.x].
  split; [reflexivity|]. split; [reflexivity|].
  change (BirdDodger.SCREEN_WIDTH - BirdDodger.BIRD_SIZE) with 122.
  assert (Hk : 0 <= rnd mod 122 < 122) by (apply Z.mod_pos_bound; lia).
  set (k := rnd mod 122) in *. clearbody k.
  assert (Hall : forallb (fun k => F32.leb (F32.of_int 0) (F32.of_int k)
                                   && F32.leb (F32.add (F32.of_int k) (F32.of_int 6))
                                              (F32.of_int 128))
                         (seqZ 0 122) = true)
    by (vm_compute; reflexivity).
  rewrite forallb_forall in Hall.
  specialize (Hall k). apply andb_prop. apply Hall.
  apply list_elem_of_In, elem_of_seqZ. lia.
Qed.

Lemma spawnLoop_finds (n : nat) :
  forall (i : nat) (rnd : Z) (bs : list BirdDodger.Bird),
  (exists (j : nat) (b : BirdDodger.Bird),
      (i <= j < i + n)%nat /\ bs !! j = Some b /\ BirdDodger.active b = false) ->
  exists (j : nat) (b : BirdDodger.Bird),
    (i <= j < i + n)%nat /\ bs !! j = Some b /\ BirdDodger.active b = false
    /\ (forall (k : nat) (c : BirdDodger.Bird),
          (i <= k < j)%nat -> bs !! k = Some c -> BirdDodger.active c = true)
    /\ BirdDodger.spawnLoop n i rnd bs = <[j := BirdDodger.freshBird rnd]> bs.
Proof.
  induction n as [|n IH]; intros i rnd bs (j & b & Hj & Hb & Ha); [lia|].
  simpl. destruct (bs !! i) as [b0|] eqn:Hi.
  - destruct (BirdDodger.active b0) eqn:Ha0; simpl.
    + destruct (IH (S i) rnd bs) as (j' & b' & Hj' & Hb' & Ha' & Hbefore & Heq).
      { exists j, b. repeat split; auto; try lia.
        destruct (decide (j = i)) as [->|Hne]; [congruence | lia]. }
      exists j', b'. repeat split; auto; try lia.
      intros k c Hk Hc. destruct (decide (k = i)) as [->|Hne]; [congruence|].
      apply (Hbefore k c); [lia | exact Hc].
    + exists i, b0. repeat split; auto; lia.
  - apply lookup_ge_None in Hi.
    assert (bs !! j = None) by (apply lookup_ge_None; lia). congruence.
Qed.

Lemma insert_activeCount (bs : list BirdDodger.Bird) (j : nat)
      (b b' : BirdDodger.Bird) :
  bs !! j = Some b ->
  BirdDodger.active b = false -> BirdDodger.active b' = true ->
  BirdDodger.activeCount (<[j := b']> bs) = S (BirdDodger.activeCount bs).
Proof.
  intros Hb Ha Ha'. unfold BirdDodger.activeCount.
  rewrite <- (take_drop_middle bs j b Hb) at 2.
  rewrite insert_take_drop by (eapply lookup_lt_Some; eauto).
  rewrite !filter_app, !filter_cons, !length_app.
  rewrite (decide_True (P := BirdDodger.active b' = true)) by exact Ha'.
  rewrite (decide_False (P := BirdDodger.active b = true))
    by (rewrite Ha; discriminate).
  simpl length. lia.
Qed.

(** X7.  A spawn on a pool with an inactive slot takes the first one, in
    index order: the slots before it are active, that slot receives an
    active bird at [y = -BIRD_SIZE] wholly within the screen's width,
    every other slot is left as it is, and the number of active slots
    grows by exactly one. *)
Theorem spawn_takes_first_free_slot (rnd : Z) (s : BirdDodger.State) :
  BirdDodger.wf s ->
  (exists b : BirdDodger.Bird,
      b ∈ BirdDodger.birdState s /\ BirdDodger.active b = false) ->
  exists (j : nat) (old : BirdDodger.Bird),
    (j < BirdDodger.MAX_BIRDS)%nat
    /\ BirdDodger.birdState s !! j = Some old
    /\ BirdDodger.active old = false
    /\ (forall (k : nat) (c : BirdDodger.Bird),
          (k < j)%nat -> BirdDodger.birdState s !! k = Some c ->
          BirdDodger.active c = true)
    /\ BirdDodger.birdState (BirdDodger.spawnBird rnd s)
       = <[j := BirdDodger.freshBird rnd]> (BirdDodger.birdState s)
    /\ BirdDodger.activeCount (BirdDodger.birdState (BirdDodger.spawnBird rnd s))
       = S (BirdDodger.activeCount (BirdDodger.birdState s))
    /\ BirdDodger.y (BirdDodger.freshBird rnd) = F32.of_int (- BirdDodger.BIRD_SIZE)
    /\ F32.leb (F32.of_int 0) (BirdDodger.x (BirdDodger.freshBird rnd)) = true
    /\ F32.leb (F32.add (BirdDodger.x (BirdDodger.freshBird rnd))
                        (F32.of_int BirdDodger.BIRD_SIZE))
               (F32.of_int BirdDodger.SCREEN_WIDTH) = true.
Proof.
  intros Hwf (b & Hin & Ha). unfold BirdDodger.wf in Hwf.
  apply list_elem_of_lookup in Hin as (j0 & Hj0).
  destruct (spawnLoop_finds BirdDodger.MAX_BIRDS 0 rnd (BirdDodger.birdState s))
    as (j & old & Hj & Hold & Haold & Hbefore & Heq).
  { exists j0, b. repeat split; auto; try lia.
    apply lookup_lt_Some in Hj0. lia. }
  destruct (freshBird_on_screen rnd) as (Hfa & Hfy & Hfx0 & Hfx1).
  exists j, old.
  split; [lia|]. split; [exact Hold|]. split; [exact Haold|].
  split; [intros k c Hk; apply Hbefore; lia|].
  unfold BirdDodger.spawnBird. cbn -[BirdDodger.spawnLoop].
  rewrite Heq. split; [reflexivity|].
  split; [now apply (insert_activeCount _ _ old)|].
  repeat split; assumption.
Qed.

(** The pool of the constructor: the first spawn takes slot 0. *)
Lemma spawn_takes_first_free_slot_witness :
  exists (j : nat) (old : BirdDodger.Bird),
    (j < 5)%nat
    /\ BirdDodger.birdState BirdDodger.construct !! j = Some old
    /\ BirdDodger.activeCount
         (BirdDodger.birdState (BirdDodger.spawnBird 200 BirdDodger.construct))
       = 1%nat.
Proof.
  destruct (spawn_takes_first_free_slot 200 BirdDodger.construct eq_refl)
    as (j & old & Hj & Hold & _ & _ & _ & Hcount & _).
  - exists (BirdDodger.mkBird (F32.of_int 0) (F32.of_int (-6)) false).
    split; [|reflexivity]. apply list_elem_of_lookup. exists 0%nat. reflexivity.
  - exists j, old. split; [exact Hj|]. split; [exact Hold|]. exact Hcount.
Defined.

(** ** BirdDodger: the end of the game *)

(** X8.  A tick of a running game ends it exactly when, after the move
    pass, some active bird overlaps the plane; it then plays the miss cue
    once, however many birds overlap, and otherwise plays nothing. *)
Theorem bird_game_over_iff (rnd : Z) (sample : F32.float) (s : BirdDodger.State) :
  BirdDodger.wf s ->
  BirdDodger.gameOver s = false ->
  let m := BirdDodger.advance rnd s in
  let s' := BirdDodger.updateGame rnd sample s in
  (BirdDodger.gameOver s' = true <->
   exists (i : nat) (b : BirdDodger.Bird),
     BirdDodger.birdState m !! i = Some b
     /\ BirdDodger.active b = true
     /\ BirdDodger.collides (BirdDodger.planePixelX s) b = true)
  /\ BirdDodger.audio s'
     = (if BirdDodger.gameOver s' then MissSound :: BirdDodger.audio s
        else BirdDodger.audio s).
Proof.
  intros Hwf Hplay m s'. unfold BirdDodger.wf in Hwf.
  destruct (bird_advance_frame rnd s) as (Hgo & _ & _ & Hpx & _ & Hau & Hlen).
  fold m in Hgo, Hpx, Hau, Hlen.
  assert (Hc : BirdDodger.gameOver s' = BirdDodger.gameOver (BirdDodger.checkCollisions m)
               /\ BirdDodger.audio s' = BirdDodger.audio (BirdDodger.checkCollisions m)).
  { unfold s'. rewrite (bird_updateGame_playing _ _ _ Hplay). fold m.
    destruct (bird_adjustDifficulty_frame
                (BirdDodger.updatePlane sample (BirdDodger.checkCollisions m)))
      as (_ & _ & -> & _ & -> & _).
    destruct (bird_updatePlane_frame sample (BirdDodger.checkCollisions m))
      as (_ & _ & _ & _ & -> & -> & _).
    split; reflexivity. }
  destruct Hc as (-> & ->).
  assert (Hpp : BirdDodger.planePixelX m = BirdDodger.planePixelX s)
    by (unfold BirdDodger.planePixelX; now rewrite Hpx).
  unfold BirdDodger.checkCollisions. rewrite Hgo, Hplay, Hpp.
  destruct (BirdDodger.collisionLoop BirdDodger.MAX_BIRDS 0
              (BirdDodger.planePixelX s) (BirdDodger.birdState m)) eqn:Hloop.
  - cbn [BirdDodger.gameOver BirdDodger.audio BirdDodger.playMissSound
         BirdDodger.set_gameOver].
    rewrite Hau. split; [|reflexivity]. split; [intros _|reflexivity].
    apply collisionLoop_spec in Hloop as (i & b & _ & Hb & Ha & Hcol).
    exists i, b. repeat split; assumption.
  - rewrite Hgo, Hplay, Hau. split; [|reflexivity].
    split; [discriminate|]. intros (i & b & Hb & Ha & Hcol).
    rewrite <- Hloop. apply collisionLoop_spec. exists i, b.
    repeat split; auto; try lia.
    apply lookup_lt_Some in Hb. lia.
Qed.

(** Nothing overlaps the plane: the game goes on in silence. *)
Lemma bird_game_over_iff_witness :
  BirdDodger.audio (BirdDodger.updateGame 0 (F32.of_int 0) Scenario.dodgerReap) = [].
Proof.
  destruct (bird_game_over_iff 0 (F32.of_int 0) Scenario.dodgerReap eq_refl eq_refl)
    as (_ & H).
  rewrite H. vm_compute. reflexivity.
Defined.

(** ** The exit request *)

(** X9.  [handleInput] asks for the transition to the main menu exactly
    on a press of Alt, in either phase, and then leaves the session as it
    is. *)
Theorem exit_request_iff :
  (forall (cosf sinf : F32.float -> F32.float) (ev : option Input.Event) (rnd : Z)
          (s : Pong.State),
      (snd (Pong.handleInput cosf sinf ev rnd s) = true <-> ev = Scenario.pressAlt)
      /\ (ev = Scenario.pressAlt -> fst (Pong.handleInput cosf sinf ev rnd s) = s))
  /\ (forall (ev : option Input.Event) (s : BirdDodger.State),
      (snd (BirdDodger.handleInput ev s) = true <-> ev = Scenario.pressAlt)
      /\ (ev = Scenario.pressAlt -> fst (BirdDodger.handleInput ev s) = s)).
Proof.
  split.
  - intros cosf sinf ev rnd s.
    destruct ev as [[[[] []]|]|]; simpl;
      try destruct (Pong.gameOver s); simpl;
      (split; [split; [discriminate || reflexivity | discriminate || reflexivity]
              | discriminate || reflexivity]).
  - intros ev s.
    destruct ev as [[[[] []]|]|]; simpl;
      try destruct (BirdDodger.gameOver s); simpl;
      (split; [split; [discriminate || reflexivity | discriminate || reflexivity]
              | discriminate || reflexivity]).
Qed.

Lemma exit_request_iff_witness :
  fst (Pong.handleInput Scenario.cos0 Scenario.sin0 Scenario.pressAlt 9
                        Scenario.pongOver) = Scenario.pongOver
  /\ fst (BirdDodger.handleInput Scenario.pressAlt Scenario.dodgerOver)
     = Scenario.dodgerOver.
Proof.
  split.
  - apply (proj1 exit_request_iff Scenario.cos0 Scenario.sin0 Scenario.pressAlt 9
                 Scenario.pongOver). reflexivity.
  - apply (proj2 exit_request_iff Scenario.pressAlt Scenario.dodgerOver). reflexivity.
Defined.

(** ** BirdDodger: the spawn cadence *)

Lemma moveLoop_all_inactive (n : nat) :
  forall (i : nat) (v : F32.float) (bs : list BirdDodger.Bird) (sc : Z),
  Forall (fun b => BirdDodger.active b = false) bs ->
  BirdDodger.moveLoop n i v bs sc = (bs, sc).
Proof.
  induction n as [|n IH]; intros i v bs sc Hall; simpl; [reflexivity|].
  destruct (bs !! i) as [b|] eqn:Hi; [|reflexivity].
  rewrite (proj1 (Forall_lookup _ _) Hall i b Hi). now apply IH.
Qed.

Lemma collisionLoop_all_inactive (n : nat) :
  forall (i : nat) (px : F32.float) (bs : list BirdDodger.Bird),
  Forall (fun b => BirdDodger.active b = false) bs ->
  BirdDodger.collisionLoop n i px bs = false.
Proof.
  induction n as [|n IH]; intros i px bs Hall; simpl; [reflexivity|].
  destruct (bs !! i) as [b|] eqn:Hi; [|reflexivity].
  rewrite (proj1 (Forall_lookup _ _) Hall i b Hi). simpl. now apply IH.
Qed.

Lemma bird_tail_frameCounter (sample : F32.float) (s : BirdDodger.State) :
  BirdDodger.frameCounter
    (BirdDodger.adjustDifficulty
       (BirdDodger.updatePlane sample (BirdDodger.checkCollisions s)))
  = BirdDodger.frameCounter s.
Proof.
  unfold BirdDodger.adjustDifficulty, BirdDodger.updatePlane,
    BirdDodger.checkCollisions.
  repeat match goal with |- context [if ?c then _ else _] => destruct c end;
    reflexivity.
Qed.

Lemma bird_advance_frameCounter (rnd : Z) (s : BirdDodger.State) :
  BirdDodger.frameCounter (BirdDodger.advance rnd s)
  = Int.wrap32 (BirdDodger.frameCounter s + 1).
Proof.
  unfold BirdDodger.advance, BirdDodger.moveBirds.
  destruct (Z.rem _ _ =? 0);
    match goal with
    | |- context [BirdDodger.moveLoop ?n ?i ?v ?bs ?sc] =>
        destruct (BirdDodger.moveLoop n i v bs sc) as [bs' sc']
    end; reflexivity.
Qed.

Lemma bird_advance_empty (rnd : Z) (s : BirdDodger.State) (k : Z) :
  BirdDodger.frameCounter s = k -> 0 <= k < 59 ->
  Forall (fun b => BirdDodger.active b = false) (BirdDodger.birdState s) ->
  BirdDodger.advance rnd s = BirdDodger.set_frameCounter (k + 1) s.
Proof.
  intros Hfc Hk Hall. unfold BirdDodger.advance.
  rewrite Hfc, wrap32_id by (unfold Int.INT_MIN, Int.INT_MAX; lia).
  assert (Hrem : (Z.rem (k + 1) BirdDodger.SPAWN_INTERVAL =? 0) = false).
  { apply Z.eqb_neq. rewrite Z.rem_small by (unfold BirdDodger.SPAWN_INTERVAL; lia).
    lia. }
  cbn [BirdDodger.frameCounter BirdDodger.set_frameCounter].
  rewrite Hrem. unfold BirdDodger.moveBirds.
  cbn [BirdDodger.scrollSpeed BirdDodger.birdState BirdDodger.score].
  rewrite (moveLoop_all_inactive _ _ _ _ _ Hall).
  destruct s; reflexivity.
Qed.

(** What a tick does to an empty screen, off the spawn frames. *)
Lemma bird_tick_empty (rnd : Z) (sample : F32.float) (s : BirdDodger.State) (k : Z) :
  BirdDodger.gameOver s = false ->
  BirdDodger.frameCounter s = k -> 0 <= k < 59 ->
  BirdDodger.score s = 0 ->
  Forall (fun b => BirdDodger.active b = false) (BirdDodger.birdState s) ->
  let s' := BirdDodger.updateGame rnd sample s in
  BirdDodger.gameOver s' = false
  /\ BirdDodger.frameCounter s' = k + 1
  /\ BirdDodger.score s' = 0
  /\ BirdDodger.scrollSpeed s' = BirdDodger.scrollSpeed s
  /\ BirdDodger.birdState s' = BirdDodger.birdState s.
Proof.
  intros Hplay Hfc Hk Hsc Hall. cbv zeta.
  rewrite (bird_updateGame_playing _ _ _ Hplay).
  rewrite bird_tail_frameCounter.
  rewrite (bird_advance_empty rnd s k Hfc Hk Hall).
  set (m := BirdDodger.set_frameCounter (k + 1) s).
  assert (Hcol : BirdDodger.checkCollisions m = m).
  { unfold BirdDodger.checkCollisions.
    change (BirdDodger.gameOver m) with (BirdDodger.gameOver s).
    change (BirdDodger.birdState m) with (BirdDodger.birdState s).
    now rewrite Hplay, (collisionLoop_all_inactive _ _ _ _ Hall). }
  rewrite Hcol.
  assert (Hadj : BirdDodger.adjustDifficulty (BirdDodger.updatePlane sample m)
                 = BirdDodger.updatePlane sample m).
  { unfold BirdDodger.adjustDifficulty.
    destruct (bird_updatePlane_frame sample m) as (-> & _).
    change (BirdDodger.score m) with (BirdDodger.score s).
    rewrite Hsc. reflexivity. }
  rewrite Hadj.
  destruct (bird_updatePlane_frame sample m) as (-> & -> & _ & -> & -> & _).
  repeat split; auto.
Qed.

Lemma bird_ticks_empty (inputs : list (Z * F32.float)) :
  forall (s : BirdDodger.State) (k : Z),
  BirdDodger.gameOver s = false ->
  BirdDodger.frameCounter s = k -> 0 <= k ->
  k + Z.of_nat (length inputs) <= 59 ->
  BirdDodger.score s = 0 ->
  Forall (fun b => BirdDodger.active b = false) (BirdDodger.birdState s) ->
  let s' := BirdDodger.run (Slot.ticks inputs) s in
  BirdDodger.gameOver s' = false
  /\ BirdDodger.frameCounter s' = k + Z.of_nat (length inputs)
  /\ BirdDodger.score s' = 0
  /\ BirdDodger.scrollSpeed s' = BirdDodger.scrollSpeed s
  /\ BirdDodger.birdState s' = BirdDodger.birdState s.
Proof.
  induction inputs as [|[rnd sample] inputs IH]; intros s k Hplay Hfc Hk Hlen Hsc Hall.
  - simpl. repeat split; auto. lia.
  - simpl in Hlen. cbn [Slot.ticks fmap list_fmap BirdDodger.run BirdDodger.step fst snd].
    destruct (bird_tick_empty rnd sample s k Hplay Hfc ltac:(lia) Hsc Hall)
      as (H1 & H2 & H3 & H4 & H5).
    destruct (IH (BirdDodger.updateGame rnd sample s) (k + 1) H1 H2 ltac:(lia)
                 ltac:(lia) H3 ltac:(now rewrite H5))
      as (G1 & G2 & G3 & G4 & G5).
    cbv zeta. unfold Slot.ticks in *.
    rewrite G1, G2, G3, G4, G5, H4, H5.
    repeat split; auto. simpl length. lia.
Qed.

Lemma activeCount_all_inactive (bs : list BirdDodger.Bird) :
  Forall (fun b => BirdDodger.active b = false) bs ->
  BirdDodger.activeCount bs = 0%nat.
Proof.
  unfold BirdDodger.activeCount.
  induction 1 as [|b bs Hb _ IH]; [reflexivity|].
  rewrite filter_cons, decide_False by (rewrite Hb; discriminate).
  exact IH.
Qed.

(** X10.  From the state the constructor or a restart leaves, the first
    59 ticks put no bird on the screen and change neither score nor
    speed; the 60th tick spawns one bird, in slot 0, and its move pass
    already takes that bird one step down, to
    [y = -BIRD_SIZE + INITIAL_SPEED = -5]. *)
Theorem first_spawn_at_frame_60 (inputs : list (Z * F32.float)) (rnd : Z)
        (sample : F32.float) (s : BirdDodger.State) :
  Slot.fresh s ->
  length inputs = 59%nat ->
  let s59 := BirdDodger.run (Slot.ticks inputs) s in
  let s60 := BirdDodger.updateGame rnd sample s59 in
  BirdDodger.birdState s59 = BirdDodger.birdState s
  /\ BirdDodger.score s59 = 0
  /\ BirdDodger.gameOver s59 = false
  /\ BirdDodger.birdState s60
     = <[0%nat := BirdDodger.mkBird
                    (F32.of_int (rnd mod (BirdDodger.SCREEN_WIDTH - BirdDodger.BIRD_SIZE)))
                    (F32.of_int (-5)) true]> (BirdDodger.birdState s)
  /\ BirdDodger.activeCount (BirdDodger.birdState s60) = 1%nat
  /\ BirdDodger.frameCounter s60 = 60.
Proof.
  intros (Hwf & Hplay & Hfc & Hsc & Hsp & Hall) Hlen s59 s60.
  destruct (bird_ticks_empty inputs s 0 Hplay Hfc ltac:(lia) ltac:(lia) Hsc Hall)
    as (G1 & G2 & G3 & G4 & G5).
  fold s59 in G1, G2, G3, G4, G5. rewrite Hlen in G2.
  split; [exact G5|]. split; [exact G3|]. split; [exact G1|].
  assert (Hwf59 : BirdDodger.wf s59) by (unfold BirdDodger.wf; now rewrite G5).
  assert (Hbirds : BirdDodger.birdState s60
                   = <[0%nat := Slot.moved BirdDodger.INITIAL_SPEED
                                           (BirdDodger.freshBird rnd)]>
                       (BirdDodger.birdState s)).
  { unfold s60. rewrite (bird_updateGame_playing _ _ _ G1).
    destruct (bird_adjustDifficulty_frame
                (BirdDodger.updatePlane sample
                   (BirdDodger.checkCollisions (BirdDodger.advance rnd s59))))
      as (_ & -> & _).
    destruct (bird_updatePlane_frame sample
                (BirdDodger.checkCollisions (BirdDodger.advance rnd s59)))
      as (_ & _ & _ & -> & _).
    destruct (bird_checkCollisions_frame (BirdDodger.advance rnd s59))
      as (_ & _ & _ & -> & _).
    rewrite (bird_advance_birds _ _ Hwf59), G2, G4, G5, Hsp.
    replace (Z.rem (Int.wrap32 (0 + Z.of_nat 59 + 1)) BirdDodger.SPAWN_INTERVAL =? 0)
      with true by (vm_compute; reflexivity).
    destruct (spawnLoop_finds BirdDodger.MAX_BIRDS 0 rnd (BirdDodger.birdState s))
      as (j & old & Hj & Hold & Haold & Hbefore & ->).
    { unfold BirdDodger.wf in Hwf.
      destruct (BirdDodger.birdState s) as [|b0 bs0] eqn:Hbs; [discriminate Hwf|].
      exists 0%nat, b0. repeat split; try (unfold BirdDodger.MAX_BIRDS; lia).
      now inversion Hall. }
    assert (j = 0%nat) as ->.
    { destruct j as [|j]; [reflexivity|]. exfalso.
      unfold BirdDodger.wf in Hwf.
      destruct (BirdDodger.birdState s) as [|b0 bs0] eqn:Hbs; [discriminate Hwf|].
      assert (BirdDodger.active b0 = true)
        by (apply (Hbefore 0%nat b0); [lia | reflexivity]).
      inversion Hall; congruence. }
    rewrite list_fmap_insert. f_equal.
    rewrite <- (list_fmap_id (BirdDodger.birdState s)) at 2.
    apply Forall_fmap_ext, Forall_forall. intros b Hb.
    unfold Slot.moved.
    now rewrite (proj1 (Forall_forall _ _) Hall b Hb). }
  assert (Hm : Slot.moved BirdDodger.INITIAL_SPEED (BirdDodger.freshBird rnd)
               = BirdDodger.mkBird
                   (F32.of_int (rnd mod (BirdDodger.SCREEN_WIDTH - BirdDodger.BIRD_SIZE)))
                   (F32.of_int (-5)) true).
  { unfold Slot.moved, BirdDodger.freshBird.
    cbn [BirdDodger.active BirdDodger.x BirdDodger.y].
    replace (F32.add (F32.of_int (- BirdDodger.BIRD_SIZE)) BirdDodger.INITIAL_SPEED)
      with (F32.of_int (-5)) by (vm_compute; reflexivity).
    replace (F32.gtb (F32.of_int (-5)) (F32.of_int BirdDodger.SCREEN_HEIGHT))
      with false by (vm_compute; reflexivity).
    reflexivity. }
  rewrite Hm in Hbirds.
  split; [exact Hbirds|]. split.
  - rewrite Hbirds. unfold BirdDodger.wf in Hwf.
    destruct (BirdDodger.birdState s) as [|b0 bs0] eqn:Hbs; [discriminate Hwf|].
    rewrite (insert_activeCount _ 0 b0); [| reflexivity | now inversion Hall | reflexivity].
    now rewrite (activeCount_all_inactive _ Hall).
  - unfold s60. rewrite (bird_updateGame_playing _ _ _ G1).
    rewrite bird_tail_frameCounter, bird_advance_frameCounter, G2.
    vm_compute. reflexivity.
Qed.

Lemma first_spawn_at_frame_60_witness :
  BirdDodger.activeCount
    (BirdDodger.birdState
       (BirdDodger.updateGame 300 (F32.of_int 0)
          (BirdDodger.run (Slot.ticks (replicate 59 (0, F32.of_int 0)))
                          BirdDodger.construct))) = 1%nat.
Proof.
  refine (proj1 (proj2 (proj2 (proj2 (proj2
            (first_spawn_at_frame_60 (replicate 59 (0, F32.of_int 0)) 300 (F32.of_int 0)
                                     BirdDodger.construct _ _)))))).
  - repeat split; try reflexivity. vm_compute. repeat constructor.
  - reflexivity.
Defined.

(** ** The sprites of the birds *)

Lemma hiddenOf_insert (bs : list BirdDodger.Bird) (i : nat) (b : BirdDodger.Bird) :
  Render.hiddenOf (<[i := b]> bs)
  = <[i := negb (BirdDodger.active b)]> (Render.hiddenOf bs).
Proof.
  unfold Render.hiddenOf.
  apply (list_fmap_insert (fun c => negb (BirdDodger.active c))).
Qed.

Lemma render_spawnLoop (n : nat) :
  forall (i : nat) (rnd : Z) (bs : list BirdDodger.Bird),
  Render.spawnLoop n i rnd bs (Render.hiddenOf bs)
  = (BirdDodger.spawnLoop n i rnd bs,
     Render.hiddenOf (BirdDodger.spawnLoop n i rnd bs)).
Proof.
  induction n as [|n IH]; intros i rnd bs; simpl; [reflexivity|].
  destruct (bs !! i) as [b|]; [|reflexivity].
  destruct (negb (BirdDodger.active b)); [|apply IH].
  now rewrite hiddenOf_insert.
Qed.

Lemma render_moveLoop (n : nat) :
  forall (i : nat) (v : F32.float) (bs : list BirdDodger.Bird) (sc : Z),
  Render.moveLoop n i v bs (Render.hiddenOf bs) sc
  = (fst (BirdDodger.moveLoop n i v bs sc),
     Render.hiddenOf (fst (BirdDodger.moveLoop n i v bs sc)),
     snd (BirdDodger.moveLoop n i v bs sc)).
Proof.
  induction n as [|n IH]; intros i v bs sc; simpl; [reflexivity|].
  destruct (bs !! i) as [b|] eqn:Hi; [|reflexivity].
  destruct (BirdDodger.active b) eqn:Ha; [|apply IH].
  destruct (F32.gtb _ _).
  - match goal with |- Render.moveLoop _ _ _ ?bs' _ _ = _ =>
      replace (<[i:=true]> (Render.hiddenOf bs)) with (Render.hiddenOf bs')
        by now rewrite hiddenOf_insert
    end.
    apply IH.
  - match goal with |- Render.moveLoop _ _ _ ?bs' _ _ = _ =>
      assert (Heq : Render.hiddenOf bs' = Render.hiddenOf bs)
    end.
    { rewrite hiddenOf_insert. cbn [BirdDodger.active negb].
      apply list_insert_id.
      unfold Render.hiddenOf. rewrite list_lookup_fmap, Hi. simpl. now rewrite Ha. }
    rewrite <- Heq. apply IH.
Qed.

Lemma render_resetLoop (n : nat) :
  forall (i : nat) (bs : list BirdDodger.Bird),
  Render.resetLoop n i bs (Render.hiddenOf bs)
  = (BirdDodger.resetLoop n i bs, Render.hiddenOf (BirdDodger.resetLoop n i bs)).
Proof.
  induction n as [|n IH]; intros i bs; simpl; [reflexivity|].
  destruct (bs !! i) as [b|]; [|reflexivity].
  match goal with |- Render.resetLoop _ _ ?bs' _ = _ =>
    replace (<[i:=true]> (Render.hiddenOf bs)) with (Render.hiddenOf bs')
      by now rewrite hiddenOf_insert
  end.
  apply IH.
Qed.

Lemma render_updateGame (rnd : Z) (sample : F32.float) (s : BirdDodger.State) :
  Render.updateGame rnd sample (s, Render.hiddenOf (BirdDodger.birdState s))
  = (BirdDodger.updateGame rnd sample s,
     Render.hiddenOf (BirdDodger.birdState (BirdDodger.updateGame rnd sample s))).
Proof.
  unfold Render.updateGame, BirdDodger.updateGame. cbn [fst snd].
  destruct (BirdDodger.gameOver s); [reflexivity|].
  destruct (bird_adjustDifficulty_frame
              (BirdDodger.updatePlane sample
                 (BirdDodger.checkCollisions (BirdDodger.advance rnd s))))
    as (_ & -> & _).
  destruct (bird_updatePlane_frame sample
              (BirdDodger.checkCollisions (BirdDodger.advance rnd s)))
    as (_ & _ & _ & -> & _).
  destruct (bird_checkCollisions_frame (BirdDodger.advance rnd s))
    as (_ & _ & _ & -> & _).
  unfold BirdDodger.advance, BirdDodger.moveBirds, Render.moveBirds,
    Render.spawnBird, BirdDodger.spawnBird.
  cbn [BirdDodger.frameCounter BirdDodger.set_frameCounter fst snd
       BirdDodger.birdState].
  destruct (Z.rem _ _ =? 0).
  - rewrite render_spawnLoop.
    cbn [fst snd BirdDodger.birdState BirdDodger.set_birds BirdDodger.scrollSpeed
         BirdDodger.score].
    rewrite render_moveLoop.
    destruct (BirdDodger.moveLoop _ _ _ _ _) as [bs' sc']. reflexivity.
  - cbn [fst snd BirdDodger.birdState BirdDodger.scrollSpeed BirdDodger.score].
    rewrite render_moveLoop.
    destruct (BirdDodger.moveLoop _ _ _ _ _) as [bs' sc']. reflexivity.
Qed.

Lemma render_handleInput (ev : option Input.Event) (s : BirdDodger.State) :
  Render.handleInput ev (s, Render.hiddenOf (BirdDodger.birdState s))
  = (fst (BirdDodger.handleInput ev s),
     Render.hiddenOf (BirdDodger.birdState (fst (BirdDodger.handleInput ev s)))).
Proof.
  destruct ev as [[[[] []]|]|]; simpl; try reflexivity.
  destruct (BirdDodger.gameOver s); [|reflexivity].
  unfold Render.restart, BirdDodger.restart. cbn [fst snd].
  now rewrite render_resetLoop.
Qed.

Lemma render_run (l : list BirdDodger.Step) :
  forall s : BirdDodger.State,
  Render.run l (s, Render.hiddenOf (BirdDodger.birdState s))
  = (BirdDodger.run l s, Render.hiddenOf (BirdDodger.birdState (BirdDodger.run l s))).
Proof.
  induction l as [|st l IH]; intros s; simpl; [reflexivity|].
  destruct st as [rnd sample|ev]; cbn [Render.step BirdDodger.step].
  - rewrite render_updateGame. apply IH.
  - rewrite render_handleInput. apply IH.
Qed.

(** X11.  Through any sequence of ticks and input events from the
    constructor on, the sprite of a bird is hidden exactly when its slot
    is inactive: every place that flips [active] sets or clears
    [LV_OBJ_FLAG_HIDDEN] on the same index, and the session itself is
    not affected by the flags. *)
Theorem sprites_mirror_pool (l : list BirdDodger.Step) :
  let v := Render.run l Render.construct in
  fst v = BirdDodger.run l BirdDodger.construct
  /\ snd v = Render.hiddenOf (BirdDodger.birdState (fst v))
  /\ forall (i : nat) (b : BirdDodger.Bird),
       BirdDodger.birdState (fst v) !! i = Some b ->
       snd v !! i = Some (negb (BirdDodger.active b)).
Proof.
  cbv zeta.
  change Render.construct
    with (BirdDodger.construct,
          Render.hiddenOf (BirdDodger.birdState BirdDodger.construct)).
  rewrite render_run. cbn [fst snd].
  split; [reflexivity|]. split; [reflexivity|].
  intros i b Hb. unfold Render.hiddenOf. now rewrite list_lookup_fmap, Hb.
Qed.

(** At frame 60 the first sprite is shown. *)
Lemma sprites_mirror_pool_witness :
  snd (Render.run (Slot.ticks (replicate 60 (300, F32.of_int 0))) Render.construct)
  !! 0%nat = Some false.
Proof.
  apply (proj2 (proj2 (sprites_mirror_pool
                         (Slot.ticks (replicate 60 (300, F32.of_int 0)))))
               0%nat (BirdDodger.mkBird (F32.of_int 56) (F32.of_int (-5)) true)).
  vm_compute. reflexivity.
Defined.

(** ** The score label *)

Lemma substring_all (t : string) (n : nat) :
  (String.length t <= n)%nat -> String.substring 0 n t = t.
Proof.
  revert n. induction t as [|c t IH]; intros n Hn.
  - destruct n; reflexivity.
  - destruct n as [|n]; simpl in Hn; [lia|].
    simpl. f_equal. apply IH. lia.
Qed.

Lemma string_length_app (a b : string) :
  String.length (a +:+ b) = (String.length a + String.length b)%nat.
Proof. induction a as [|c a IH]; simpl; [reflexivity | now rewrite IH]. Qed.

(** The decimal digits of a number below [10^k] are at most [k]. *)
Lemma pretty_N_go_length (k : nat) :
  forall (x : N) (acc : string),
  (x < 10 ^ N.of_nat k)%N ->
  (String.length (pretty_N_go x acc) <= k + String.length acc)%nat.
Proof.
  induction k as [|k IH]; intros x acc Hx.
  - assert (x = 0%N) as -> by (simpl in Hx; lia).
    rewrite pretty_N_go_0. lia.
  - destruct (decide (x = 0%N)) as [->|Hne].
    + rewrite pretty_N_go_0. lia.
    + rewrite pretty_N_go_step by lia.
      etransitivity; [apply IH|simpl; lia].
      rewrite Nat2N.inj_succ, N.pow_succ_r' in Hx.
      apply N.Div0.div_lt_upper_bound. lia.
Qed.

Lemma pretty_int_length (z : Z) :
  Int.INT_MIN <= z <= Int.INT_MAX -> (String.length (pretty z) <= 11)%nat.
Proof.
  unfold Int.INT_MIN, Int.INT_MAX. intros Hz.
  destruct z as [|p|p]; unfold pretty, pretty_Z.
  - simpl. lia.
  - unfold pretty, pretty_positive, pretty, pretty_N.
    destruct (decide (N.pos p = 0%N)); [simpl; lia|].
    pose proof (pretty_N_go_length 10 (N.pos p) "") as H.
    simpl String.length in H. etransitivity; [apply H|lia]. lia.
  - rewrite string_length_app. simpl String.length at 1.
    unfold pretty, pretty_positive, pretty, pretty_N.
    destruct (decide (N.pos p = 0%N)); [simpl; lia|].
    pose proof (pretty_N_go_length 10 (N.pos p) "") as H.
    simpl String.length in H.
    assert (String.length (pretty_N_go (N.pos p) "") <= 10)%nat
      by (etransitivity; [apply H|lia]; lia).
    lia.
Qed.

(** X12.  For every [int] score the text of the label fits the 32-byte
    buffer of [updateUI]: [snprintf] never cuts it, so the label shows
    the whole score, and the whole "Game Over!" line once the game is
    over. *)
Theorem score_label_never_cut (score : Z) (over : bool) :
  Int.INT_MIN <= score <= Int.INT_MAX ->
  Render.scoreLabel score over = Render.scoreText score over
  /\ (String.length (Render.scoreLabel score over) <= 29)%nat.
Proof.
  intros Hz. pose proof (pretty_int_length score Hz) as Hlen.
  assert (Htext : (String.length (Render.scoreText score over) <= 29)%nat).
  { unfold Render.scoreText. destruct over.
    - rewrite !string_length_app. simpl String.length. lia.
    - rewrite string_length_app. simpl String.length. lia. }
  unfold Render.scoreLabel, Render.snprintf.
  rewrite substring_all by (simpl; lia).
  split; [reflexivity | exact Htext].
Qed.

(** The longest label there is. *)
Lemma score_label_never_cut_witness :
  String.length (Render.scoreLabel Int.INT_MIN true) = 29%nat.
Proof.
  assert (H : Int.INT_MIN <= Int.INT_MIN <= Int.INT_MAX)
    by (unfold Int.INT_MIN, Int.INT_MAX; lia).
  rewrite (proj1 (score_label_never_cut Int.INT_MIN true H)).
  vm_compute. reflexivity.
Defined.

(** ** The frame pacing *)

(** X13.  An iteration of [gameLoop] whose update pass took [work] ticks
    lasts [frameTime] ticks if the pass was shorter than that and [work]
    ticks otherwise: lost time is not made up, and the unsigned
    subtraction gives the right elapsed time even when the tick counter
    wraps around during the pass. *)
Theorem frame_pacing (frameTime startTick work : Z) :
  0 <= startTick < 2 ^ 32 ->
  0 <= work < 2 ^ 32 ->
  0 <= frameTime < 2 ^ 32 ->
  Clock.elapsed startTick (Int.uwrap32 (startTick + work)) = work
  /\ Clock.frameLength frameTime startTick work = Z.max frameTime work
  /\ (Clock.frameDelay frameTime startTick (Int.uwrap32 (startTick + work)) = None
      <-> frameTime <= work).
Proof.
  intros Hs Hw Hf.
  assert (He : Clock.elapsed startTick (Int.uwrap32 (startTick + work)) = work).
  { unfold Clock.elapsed, Int.uwrap32.
    rewrite Zminus_mod_idemp_l.
    replace (startTick + work - startTick) with work by lia.
    apply Z.mod_small. lia. }
  split; [exact He|].
  unfold Clock.frameLength, Clock.frameDelay. rewrite He.
  destruct (Z.ltb_spec work frameTime) as [Hlt|Hge].
  - unfold Int.uwrap32. rewrite Z.mod_small by lia.
    split; [lia|]. split; [discriminate | lia].
  - split; [lia|]. split; [intros _; exact Hge | reflexivity].
Qed.

(** The counter wraps during the pass. *)
Lemma frame_pacing_witness :
  Clock.elapsed (2 ^ 32 - 3) 4 = 7
  /\ Clock.frameLength 16 (2 ^ 32 - 3) 7 = 16.
Proof.
  destruct (frame_pacing 16 (2 ^ 32 - 3) 7) as (H1 & H2 & _); try lia.
  split; [exact H1 | exact H2].
Defined.

(** ** The progression over a whole session *)

Lemma sessionInv_tick (rnd : Z) (sample : F32.float) (s : BirdDodger.State) :
  BirdDodger.sessionInv s ->
  BirdDodger.score s <= Int.INT_MAX - Z.of_nat BirdDodger.MAX_BIRDS ->
  let s' := BirdDodger.updateGame rnd sample s in
  BirdDodger.sessionInv s'
  /\ BirdDodger.score s <= BirdDodger.score s'
     <= BirdDodger.score s + Z.of_nat BirdDodger.MAX_BIRDS.
Proof.
  intros Hinv Hmax s'. pose proof Hinv as (Hlev & Hlast & HJ).
  destruct (BirdDodger.gameOver s) eqn:Hgo.
  - assert (s' = s) as -> by (unfold s', BirdDodger.updateGame; now rewrite Hgo).
    split; [exact Hinv | lia].
  - set (a := BirdDodger.updatePlane sample
                (BirdDodger.checkCollisions (BirdDodger.advance rnd s))).
    assert (Hs' : s' = BirdDodger.adjustDifficulty a)
      by (unfold s'; now apply bird_updateGame_playing).
    destruct (bird_before_adjust rnd sample s) as (Ha1 & Ha2 & Ha3).
    fold a in Ha1, Ha2, Ha3.
    assert (Hscore : BirdDodger.score s' = BirdDodger.score a)
      by (rewrite Hs'; now destruct (bird_adjustDifficulty_frame a) as (-> & _)).
    assert (Hsc : BirdDodger.score s <= BirdDodger.score s'
                  <= BirdDodger.score s + Z.of_nat BirdDodger.MAX_BIRDS).
    { rewrite Hscore, Ha1. apply bird_advance_score; [|exact Hmax].
      unfold Int.INT_MIN. lia. }
    split; [|exact Hsc].
    destruct (speedLevels_facts _ Hlev) as (_ & _ & _ & Hnext & _).
    destruct (adjustDifficulty_cases a)
      as [(Hpos & Hrem & Hlt & Hne & Hv & Hl) | (Hno & Hv & Hl)];
      rewrite <- Hs' in Hv, Hl; rewrite Ha2 in *; rewrite Ha3 in *;
      rewrite <- Hscore in *; unfold BirdDodger.sessionInv; rewrite Hv, Hl.
    + split; [exact Hnext|]. split; [lia | reflexivity].
    + split; [exact Hlev|]. split; [lia|].
      intros H1 H2 H3.
      destruct (Z.eq_dec (BirdDodger.score s') (BirdDodger.lastDifficultyScore s))
        as [He|He]; [now symmetry|].
      exfalso. apply Hno. repeat split; auto.
Qed.

Lemma sessionInv_run (l : list BirdDodger.Step) :
  forall (s : BirdDodger.State) (n : Z),
  BirdDodger.sessionInv s ->
  BirdDodger.score s <= 5 * n ->
  5 * (n + Z.of_nat (length l)) <= Int.INT_MAX - 5 ->
  BirdDodger.sessionInv (BirdDodger.run l s)
  /\ BirdDodger.score (BirdDodger.run l s) <= 5 * (n + Z.of_nat (length l)).
Proof.
  induction l as [|st l IH]; intros s n Hinv Hsc Hlen; simpl BirdDodger.run.
  - split; [exact Hinv | simpl; lia].
  - simpl length in *.
    destruct (IH (BirdDodger.step st s) (n + 1)) as (H1 & H2); try lia.
    + destruct st as [rnd sample|ev]; simpl.
      * apply sessionInv_tick; [exact Hinv|].
        change (Z.of_nat BirdDodger.MAX_BIRDS) with 5. lia.
      * now apply sessionInv_poll.
    + destruct st as [rnd sample|ev]; simpl.
      * destruct (sessionInv_tick rnd sample s Hinv) as (_ & Hb).
        { change (Z.of_nat BirdDodger.MAX_BIRDS) with 5. lia. }
        change (Z.of_nat BirdDodger.MAX_BIRDS) with 5 in Hb. lia.
      * destruct Hinv as (_ & Hlast & _).
        destruct ev as [[[[] []]|]|]; simpl; try lia.
        destruct (BirdDodger.gameOver s); simpl; lia.
    + split; [exact H1 | lia].
Qed.

(** X14.  Through any sequence of ticks and input events from the
    constructor on (short enough for the [int] score not to overflow:
    five points a tick at most), the scroll speed is one of the 22
    levels, all between [INITIAL_SPEED] and [MAX_SPEED], and the score is
    never negative. *)
Theorem speed_bounded_in_session (l : list BirdDodger.Step) :
  5 * Z.of_nat (length l) <= Int.INT_MAX - 5 ->
  let s := BirdDodger.run l BirdDodger.construct in
  In (BirdDodger.scrollSpeed s) BirdDodger.speedLevels
  /\ F32.leb BirdDodger.INITIAL_SPEED (BirdDodger.scrollSpeed s) = true
  /\ F32.leb (BirdDodger.scrollSpeed s) BirdDodger.MAX_SPEED = true
  /\ 0 <= BirdDodger.score s <= 5 * Z.of_nat (length l).
Proof.
  intros Hlen s.
  destruct (sessionInv_run l BirdDodger.construct 0 sessionInv_construct)
    as ((Hlev & Hlast & _) & Hsc); [simpl; lia | lia |].
  fold s in Hlev, Hlast, Hsc.
  destruct (speedLevels_facts _ Hlev) as (Hfloor & Hceil & _).
  repeat split; auto; lia.
Qed.

Lemma speed_bounded_in_session_witness :
  let s := BirdDodger.run (Slot.ticks (replicate 60 (7, F32.lit 1 10)))
                          BirdDodger.construct in
  F32.leb BirdDodger.INITIAL_SPEED (BirdDodger.scrollSpeed s) = true
  /\ F32.leb (BirdDodger.scrollSpeed s) BirdDodger.MAX_SPEED = true.
Proof.
  destruct (speed_bounded_in_session (Slot.ticks (replicate 60 (7, F32.lit 1 10))))
    as (_ & H1 & H2 & _).
  - vm_compute. discriminate.
  - split; [exact H1 | exact H2].
Defined.

(** ** The launch angle *)

(** X15.  Whatever the draw, [resetBall] never hands a negative angle to
    the C library: a draw in the upper half gives between 0 and 44
    degrees in radians (at most pi/4), a draw in the lower half gives
    more than a full turn.  The angle depends on the draw through
    [rnd mod 90] only. *)
Theorem launch_angle_never_negative (rnd : Z) :
  let a := Pong.angle rnd in
  let quarter := F64.to_f32 (F64.div F64.M_PI (F64.of_int 4)) in
  Pong.angle rnd = Pong.angle (rnd mod 90)
  /\ F32.leb (F32.of_int 0) a = true
  /\ (45 <= rnd mod 90 -> F32.leb a quarter = true)
  /\ (rnd mod 90 < 45 -> F32.gtb a (F32.of_int 6) = true).
Proof.
  cbv zeta.
  assert (Hmod : Pong.angle rnd = Pong.angle (rnd mod 90))
    by (unfold Pong.angle, Pong.angleDegrees; now rewrite Z.mod_mod by lia).
  split; [exact Hmod|]. rewrite Hmod.
  assert (Hk : 0 <= rnd mod 90 < 90) by (apply Z.mod_pos_bound; lia).
  set (k := rnd mod 90) in *. clearbody k.
  assert (Hall :
            forallb (fun k =>
                       F32.leb (F32.of_int 0) (Pong.angle k)
                       && (if 45 <=? k
                           then F32.leb (Pong.angle k)
                                        (F64.to_f32 (F64.div F64.M_PI (F64.of_int 4)))
                           else F32.gtb (Pong.angle k) (F32.of_int 6)))
                    (seqZ 0 90) = true)
    by (vm_compute; reflexivity).
  rewrite forallb_forall in Hall.
  specialize (Hall k ltac:(apply list_elem_of_In, elem_of_seqZ; lia)).
  apply andb_prop in Hall as (H0 & H1).
  split; [exact H0|]. split; intros Hc.
  - now replace (45 <=? k) with true in H1 by (symmetry; apply Z.leb_le; lia).
  - now replace (45 <=? k) with false in H1 by (symmetry; apply Z.leb_gt; lia).
Qed.

Lemma launch_angle_never_negative_witness :
  F32.leb (Pong.angle 1234600)
          (F64.to_f32 (F64.div F64.M_PI (F64.of_int 4))) = true.
Proof.
  apply (proj1 (proj2 (proj2 (launch_angle_never_negative 1234600)))).
  vm_compute. discriminate.
Defined.

(** ** The order of the collision tests *)

(** The loop of [checkCollisions] stops at the first slot, in ascending
    index, that is active and overlaps the plane. *)
Lemma collisionLoop_first (n : nat) :
  forall (i : nat) (px : F32.float) (bs : list BirdDodger.Bird),
  BirdDodger.collisionLoop n i px bs = true ->
  exists (j : nat) (b : BirdDodger.Bird),
    (i <= j < i + n)%nat /\ bs !! j = Some b
    /\ BirdDodger.active b = true /\ BirdDodger.collides px b = true
    /\ forall (k : nat) (c : BirdDodger.Bird),
         (i <= k < j)%nat -> bs !! k = Some c ->
         BirdDodger.active c = true -> BirdDodger.collides px c = false.
Proof.
  induction n as [|n IH]; intros i px bs H; simpl in H; [discriminate|].
  destruct (bs !! i) as [b0|] eqn:Hi; [|discriminate].
  destruct (BirdDodger.active b0) eqn:Ha; simpl in H.
  - destruct (BirdDodger.collides px b0) eqn:Hc.
    + exists i, b0. repeat split; auto; lia.
    + destruct (IH _ _ _ H) as (j & b & Hj & Hb & Hab & Hcb & Hfirst).
      exists j, b. repeat split; auto; try lia.
      intros k c Hk Hkc Hac.
      destruct (decide (k = i)) as [->|Hne]; [congruence|].
      apply (Hfirst k c); auto. lia.
  - destruct (IH _ _ _ H) as (j & b & Hj & Hb & Hab & Hcb & Hfirst).
    exists j, b. repeat split; auto; try lia.
    intros k c Hk Hkc Hac.
    destruct (decide (k = i)) as [->|Hne]; [congruence|].
    apply (Hfirst k c); auto. lia.
Qed.

Lemma bird_checkCollisions_once (s : BirdDodger.State) :
  let c := BirdDodger.checkCollisions s in
  BirdDodger.birdState c = BirdDodger.birdState s
  /\ (length (BirdDodger.audio c) <= S (length (BirdDodger.audio s)))%nat
  /\ (c <> s ->
      exists (j : nat) (b : BirdDodger.Bird),
        BirdDodger.birdState s !! j = Some b
        /\ BirdDodger.active b = true
        /\ BirdDodger.collides (BirdDodger.planePixelX s) b = true
        /\ (forall (k : nat) (c' : BirdDodger.Bird),
              (k < j)%nat -> BirdDodger.birdState s !! k = Some c' ->
              BirdDodger.active c' = true ->
              BirdDodger.collides (BirdDodger.planePixelX s) c' = false)
        /\ c = BirdDodger.playMissSound (BirdDodger.set_gameOver true s)).
Proof.
  cbv zeta. unfold BirdDodger.checkCollisions.
  destruct (BirdDodger.gameOver s).
  { split; [reflexivity|]. split; [lia|]. intros H. now elim H. }
  destruct (BirdDodger.collisionLoop _ _ _ _) eqn:Hloop.
  - split; [reflexivity|]. split; [simpl; lia|]. intros _.
    destruct (collisionLoop_first _ _ _ _ Hloop)
      as (j & b & Hj & Hb & Hab & Hcb & Hfirst).
    exists j, b. repeat split; auto.
    intros k c' Hk. apply Hfirst. lia.
  - split; [reflexivity|]. split; [lia|]. intros H. now elim H.
Qed.

Lemma bird_tick_once (rnd : Z) (sample : F32.float) (s : BirdDodger.State) :
  (length (BirdDodger.audio (BirdDodger.updateGame rnd sample s))
   <= S (length (BirdDodger.audio s)))%nat.
Proof.
  unfold BirdDodger.updateGame. destruct (BirdDodger.gameOver s); [lia|].
  destruct (bird_adjustDifficulty_frame
              (BirdDodger.updatePlane sample
                 (BirdDodger.checkCollisions (BirdDodger.advance rnd s))))
    as (_ & _ & _ & _ & -> & _).
  destruct (bird_updatePlane_frame sample
              (BirdDodger.checkCollisions (BirdDodger.advance rnd s)))
    as (_ & _ & _ & _ & _ & -> & _).
  destruct (bird_checkCollisions_once (BirdDodger.advance rnd s)) as (_ & H & _).
  destruct (bird_advance_frame rnd s) as (_ & _ & _ & _ & _ & Hau & _).
  rewrite Hau in H. exact H.
Qed.

(** C4, amended.  The collision tests run in a fixed order.  In
    [PongGame]: top/bottom walls, then paddle side, then right wall, each
    on the state the previous one left; the paddle-side test and the
    right-wall test never both resolve, whereas the top/bottom test
    resolves independently of them, so a tick applies at most two
    resolutions to the ball.  In [BirdDodger]: the slots are tested in
    ascending index, inactive slots are skipped, the test stops at the
    first active bird that overlaps the plane, no bird is changed, and a
    tick applies at most one resolution (game over and one miss cue),
    however many birds overlap. *)
Theorem collision_checks_order :
  (forall s : Pong.State,
      Pong.checkCollisions s
      = Pong.rightWallCheck (Pong.paddleCheck (Pong.wallCheck s))
      /\ (Pong.paddleCheck (Pong.wallCheck s) <> Pong.wallCheck s ->
          Pong.checkCollisions s = Pong.paddleCheck (Pong.wallCheck s))
      /\ (Pong.resolutions s (Pong.checkCollisions s) <= 2)%nat)
  /\ (forall s : BirdDodger.State,
      let c := BirdDodger.checkCollisions s in
      BirdDodger.birdState c = BirdDodger.birdState s
      /\ (length (BirdDodger.audio c) <= S (length (BirdDodger.audio s)))%nat
      /\ (c <> s ->
          exists (j : nat) (b : BirdDodger.Bird),
            BirdDodger.birdState s !! j = Some b
            /\ BirdDodger.active b = true
            /\ BirdDodger.collides (BirdDodger.planePixelX s) b = true
            /\ (forall (k : nat) (c' : BirdDodger.Bird),
                  (k < j)%nat -> BirdDodger.birdState s !! k = Some c' ->
                  BirdDodger.active c' = true ->
                  BirdDodger.collides (BirdDodger.planePixelX s) c' = false)
            /\ c = BirdDodger.playMissSound (BirdDodger.set_gameOver true s)))
  /\ (forall (rnd : Z) (sample : F32.float) (s : BirdDodger.State),
      (length (BirdDodger.audio (BirdDodger.updateGame rnd sample s))
       <= S (length (BirdDodger.audio s)))%nat).
Proof.
  split; [exact pong_checks_order|].
  split; [exact bird_checkCollisions_once | exact bird_tick_once].
Qed.

(** A paddle hit, after which the right-wall test does nothing; and two
    birds over the plane, of which the one in the lower slot ends the
    game, with one cue. *)
Lemma collision_checks_order_witness :
  Pong.checkCollisions (Pong.moveBall Scenario.paddleHit)
  = Pong.paddleCheck (Pong.wallCheck (Pong.moveBall Scenario.paddleHit))
  /\ BirdDodger.checkCollisions Scenario.dodgerOverlap
     = BirdDodger.playMissSound (BirdDodger.set_gameOver true Scenario.dodgerOverlap)
  /\ BirdDodger.audio (BirdDodger.checkCollisions Scenario.dodgerOverlap) = [MissSound].
Proof.
  split.
  - apply (proj1 (proj2 (proj1 collision_checks_order
                                (Pong.moveBall Scenario.paddleHit)))).
    vm_compute. discriminate.
  - destruct (proj2 (proj2 (proj1 (proj2 collision_checks_order)
                                  Scenario.dodgerOverlap)))
      as (j & b & _ & _ & _ & _ & Heq).
    + vm_compute. discriminate.
    + split; [exact Heq|]. rewrite Heq. reflexivity.
Defined.
